(** * Grouper power HAL (power/power.c): policy state, uevent handler, power hints

    A shallow embedding of [sysfs_write], [uevent_event] and
    [grouper_power_hint] of power/power.c, and the properties of the
    per-CPU frequency-cap bookkeeping ([low_power_mode], [freq_set]).

    Both entry points run their state-touching part with
    [low_power_mode_lock] held, so each call is modelled as one atomic
    transformer of the machine state.  The outside world (sysfs) is an
    oracle that decides the outcome of every write; the machine carries a
    log of the calls made to the outside ([sysfs_write], [usleep]) so that
    "no endpoint write" and "in this order" can be stated. *)

From Stdlib Require Import ZArith String Ascii List Bool Lia.
From stdpp Require Import base list strings.
Import ListNotations.

Local Open Scope string_scope.
Local Open Scope Z_scope.

(** ** Constants of power.c *)

Definition CPUQUIET_CORE_LOCKER : string :=
  "/sys/devices/system/cpu/cpuquiet/balanced/core_lock_trigger".
Definition CPUFREQ_BOOSTPULSE : string :=
  "/sys/devices/system/cpu/cpufreq/interactive/boostpulse".
Definition UEVENT_MSG_LEN : Z := 2048.
Definition TOTAL_CPUS : Z := 4.
Definition RETRY_TIME_CHANGING_FREQ : Z := 20.
Definition SLEEP_USEC_BETWN_RETRY : Z := 200.
Definition LOW_POWER_MAX_FREQ : string := "640000".
Definition LOW_POWER_MIN_FREQ : string := "51000".
Definition NORMAL_MAX_FREQ : string := "1300000".
Definition UEVENT_STRING : string := "online@/devices/system/cpu/".

Definition cpu_path_min : list string :=
  [ "/sys/devices/system/cpu/cpu0/cpufreq/scaling_min_freq";
    "/sys/devices/system/cpu/cpu1/cpufreq/scaling_min_freq";
    "/sys/devices/system/cpu/cpu2/cpufreq/scaling_min_freq";
    "/sys/devices/system/cpu/cpu3/cpufreq/scaling_min_freq" ].
Definition cpu_path_max : list string :=
  [ "/sys/devices/system/cpu/cpu0/cpufreq/scaling_max_freq";
    "/sys/devices/system/cpu/cpu1/cpufreq/scaling_max_freq";
    "/sys/devices/system/cpu/cpu2/cpufreq/scaling_max_freq";
    "/sys/devices/system/cpu/cpu3/cpufreq/scaling_max_freq" ].

(** [cpu_path_min[cpu]] and [cpu_path_max[cpu]]; every read in power.c is
    at an index in [0, TOTAL_CPUS). *)
Definition path_min (cpu : nat) : string := nth cpu cpu_path_min "".
Definition path_max (cpu : nat) : string := nth cpu cpu_path_max "".

(** Values of <hardware/power.h> ([power_hint_t] is a C enum, so any
    [int] can reach the [switch]). *)
Definition POWER_HINT_INTERACTION : Z := 2.
Definition POWER_HINT_LOW_POWER : Z := 5.

(** Values of <errno.h>. *)
Definition EINVAL : Z := 22.
Definition ERANGE : Z := 34.

(** ** The C library functions the handler calls *)

Module Libc.

(** The C string that starts at a buffer: the bytes before the first
    NUL.  The memory contents handed to the model end where the string
    functions stop looking. *)
Fixpoint cstr (buf : string) : string :=
  match buf with
  | EmptyString => EmptyString
  | String c rest =>
      if Ascii.eqb c Ascii.zero then EmptyString else String c (cstr rest)
  end.

Definition strlen (s : string) : Z := Z.of_nat (String.length s).

(** [strstr hay needle]: offset of the first occurrence, [None] for the
    null pointer. *)
Fixpoint strstr (hay needle : string) : option nat :=
  if String.prefix needle hay then Some 0%nat
  else match hay with
       | EmptyString => None
       | String _ rest => S <$> strstr rest needle
       end.

(** Pointer arithmetic [s + k] inside a string. *)
Fixpoint offset (s : string) (k : nat) : string :=
  match k, s with
  | O, _ => s
  | S k', String _ rest => offset rest k'
  | S _, EmptyString => EmptyString
  end.

Definition isspace (c : ascii) : bool :=
  let n := Z.of_nat (nat_of_ascii c) in
  (n =? 32) || ((9 <=? n) && (n <=? 13)).

Definition isdigit (c : ascii) : bool :=
  let n := Z.of_nat (nat_of_ascii c) in
  (48 <=? n) && (n <=? 57).

Definition digit_val (c : ascii) : Z := Z.of_nat (nat_of_ascii c) - 48.

Fixpoint skip_space (s : string) : string :=
  match s with
  | String c rest => if isspace c then skip_space rest else s
  | EmptyString => s
  end.

(** Leading decimal digits of [s] accumulated onto [acc]; the flag tells
    whether any digit was consumed. *)
Fixpoint digits (s : string) (acc : Z) (any : bool) : Z * bool :=
  match s with
  | String c rest =>
      if isdigit c then digits rest (acc * 10 + digit_val c) true
      else (acc, any)
  | EmptyString => (acc, any)
  end.

(** [long] on the 32-bit ARM target. *)
Definition LONG_MAX : Z := 2147483647.
Definition LONG_MIN : Z := -2147483648.

Section Strtol.
(** ISO C fixes the result 0 when no digit is found and leaves it to
    the implementation whether [errno] becomes [EINVAL] then (bionic
    and glibc do not set it). *)
Variable noconv_einval : bool.

(** [strtol(s, NULL, 10)] called with [errno == 0]: the value and the
    [errno] it leaves. *)
Definition strtol (s : string) : Z * Z :=
  let s1 := skip_space s in
  let '(neg, s2) :=
    match s1 with
    | String "-"%char rest => (true, rest)
    | String "+"%char rest => (false, rest)
    | _ => (false, s1)
    end in
  let '(v, any) := digits s2 0 false in
  if negb any then (0, if noconv_einval then EINVAL else 0)
  else
    let v := if neg then - v else v in
    if v >? LONG_MAX then (LONG_MAX, ERANGE)
    else if v <? LONG_MIN then (LONG_MIN, ERANGE)
    else (v, 0).
End Strtol.

End Libc.
Import Libc.

(** ** The machine: policy state and the log of outside calls *)

(** What the kernel answers to one [sysfs_write]. *)
Inductive outcome : Type :=
| OpenFails
| WriteFails
| Written.

(** Calls that leave the process. *)
Inductive event : Type :=
| Write (path s : string)
| Usleep (usec : Z).

(** [low_power_mode] and [freq_set] are the two globals guarded by
    [low_power_mode_lock]; [log] lists the outside calls made so far,
    oldest first. *)
Record machine : Type := Machine {
  low_power_mode : bool;
  freq_set : list bool;
  log : list event
}.

(** Static initialisation of power.c. *)
Definition machine_init : machine :=
  {| low_power_mode := false;
     freq_set := replicate (Z.to_nat TOTAL_CPUS) false;
     log := [] |}.

(** The outside world: the outcome of the call made at instant [t] (the
    number of outside calls made before it) on [path] with value [s]. *)
Definition oracle : Type := nat -> string -> string -> outcome.

(** State-passing computations over the machine. *)
Definition M (A : Type) : Type := machine -> A * machine.

Definition ret {A : Type} (a : A) : M A := fun m => (a, m).

Definition bind {A B : Type} (c : M A) (k : A -> M B) : M B :=
  fun m => let (a, m') := c m in k a m'.

Notation "x <- c ;; k" := (bind c (fun x => k))
  (at level 90, c at level 80, k at level 200, right associativity).
Notation "c ;;; k" := (bind c (fun _ => k))
  (at level 90, k at level 200, right associativity).

Definition emit (e : event) : M unit :=
  fun m => (tt, {| low_power_mode := low_power_mode m;
                   freq_set := freq_set m;
                   log := log m ++ [e] |}).

Definition get_low_power_mode : M bool := fun m => (low_power_mode m, m).

Definition set_low_power_mode (b : bool) : M unit :=
  fun m => (tt, {| low_power_mode := b;
                   freq_set := freq_set m;
                   log := log m |}).

(** [freq_set[cpu]] as an rvalue. *)
Definition get_freq_set (cpu : nat) : M bool :=
  fun m => (default false (freq_set m !! cpu), m).

(** [freq_set[cpu] = b]. *)
Definition set_freq_set (cpu : nat) (b : bool) : M unit :=
  fun m => (tt, {| low_power_mode := low_power_mode m;
                   freq_set := <[cpu := b]> (freq_set m);
                   log := log m |}).

Definition usleep (usec : Z) : M unit := emit (Usleep usec).

(** ** power.c *)

Section Program.

Variable sysfs : oracle.
Variable noconv_einval : bool.

(** [sysfs_write]: -1 when [open] or [write] fails, 0 otherwise. *)
Definition sysfs_write (path s : string) : M Z :=
  fun m =>
    let r := sysfs (length (log m)) path s in
    (emit (Write path s) ;;;
     ret (match r with
          | OpenFails => -1
          | WriteFails => -1
          | Written => 0
          end)) m.

(** Body of the low-power [for] loop of [grouper_power_hint]. *)
Definition low_power_body (cpu : nat) : M unit :=
  sysfs_write (path_min cpu) LOW_POWER_MIN_FREQ ;;;
  r <- sysfs_write (path_max cpu) LOW_POWER_MAX_FREQ ;;
  if r =? 0 then set_freq_set cpu true else ret tt.

(** Body of the normal [for] loop of [grouper_power_hint]. *)
Definition normal_body (cpu : nat) : M unit :=
  r <- sysfs_write (path_max cpu) NORMAL_MAX_FREQ ;;
  if r =? 0 then set_freq_set cpu false else ret tt.

(** The [while (retry)] loop of the low-power branch of [uevent_event]. *)
Fixpoint low_power_retry (cpu : nat) (retry : nat) : M unit :=
  match retry with
  | O => ret tt
  | S retry' =>
      sysfs_write (path_min cpu) LOW_POWER_MIN_FREQ ;;;
      r <- sysfs_write (path_max cpu) LOW_POWER_MAX_FREQ ;;
      if r =? 0 then set_freq_set cpu true
      else usleep SLEEP_USEC_BETWN_RETRY ;;; low_power_retry cpu retry'
  end.

(** The [while (retry)] loop of the normal branch of [uevent_event]. *)
Fixpoint normal_retry (cpu : nat) (retry : nat) : M unit :=
  match retry with
  | O => ret tt
  | S retry' =>
      r <- sysfs_write (path_max cpu) NORMAL_MAX_FREQ ;;
      if r =? 0 then set_freq_set cpu false
      else usleep SLEEP_USEC_BETWN_RETRY ;;; normal_retry cpu retry'
  end.

(** [uevent_event], given what [recv] returned ([n]) and what it left in
    [msg]. *)
Definition uevent_event (n : Z) (msg : string) : M Z :=
  if n <=? 0 then ret (-1)
  else if n >=? UEVENT_MSG_LEN then ret (-1)
  else
    let cp := cstr msg in
    match strstr cp UEVENT_STRING with
    | Some _ =>
        let n := strlen cp in
        let '(cpu, errno) :=
          strtol noconv_einval (offset cp (Z.to_nat (n - 1))) in
        if (errno =? EINVAL) || (errno =? ERANGE)
           || (cpu <? 0) || (cpu >=? TOTAL_CPUS)
        then ret (-1)
        else
          let cpu := Z.to_nat cpu in
          let retry := Z.to_nat RETRY_TIME_CHANGING_FREQ in
          lpm <- get_low_power_mode ;;
          fs <- get_freq_set cpu ;;
          (if lpm && negb fs then low_power_retry cpu retry
           else if negb lpm && fs then normal_retry cpu retry
           else ret tt) ;;;
          ret 0
    | None => ret 0
    end.

(** [for (cpu = 0; cpu < TOTAL_CPUS; cpu++) body]. *)
Definition for_each_cpu (body : nat -> M unit) : M unit :=
  foldr (fun cpu k => body cpu ;;; k) (ret tt)
        (seq 0 (Z.to_nat TOTAL_CPUS)).

(** [grouper_power_hint]; [data] is the pointer, 0 for [NULL]. *)
Definition grouper_power_hint (hint : Z) (data : Z) : M unit :=
  if hint =? POWER_HINT_INTERACTION then
    sysfs_write CPUFREQ_BOOSTPULSE "1" ;;; ret tt
  else if hint =? POWER_HINT_LOW_POWER then
    if negb (data =? 0) then
      sysfs_write CPUQUIET_CORE_LOCKER "0" ;;;
      set_low_power_mode true ;;;
      for_each_cpu low_power_body
    else
      sysfs_write CPUQUIET_CORE_LOCKER "1" ;;;
      set_low_power_mode false ;;;
      for_each_cpu normal_body
  else ret tt.

End Program.

(** ** Vocabulary of the statements *)

Definition ok (r : outcome) : bool :=
  match r with
  | Written => true
  | _ => false
  end.

(** Does the write of [s] to the maximum-frequency endpoint of [cpu] made
    at instant [t] succeed? *)
Definition max_ok (sysfs : oracle) (t cpu : nat) (s : string) : bool :=
  ok (sysfs t (path_max cpu) s).

(** The oracle under which every write has the same outcome. *)
Definition always (r : outcome) : oracle := fun _ _ _ => r.

(** The writes of one round of the low-power branch, and what one failed
    round leaves in the log. *)
Definition low_power_round (cpu : nat) : list event :=
  [Write (path_min cpu) LOW_POWER_MIN_FREQ;
   Write (path_max cpu) LOW_POWER_MAX_FREQ].

Definition low_power_failed_round (cpu : nat) : list event :=
  low_power_round cpu ++ [Usleep SLEEP_USEC_BETWN_RETRY].

(** The per-CPU writes of one low-power (resp. normal) mode change. *)
Definition low_power_writes : list event :=
  flat_map low_power_round (seq 0 (Z.to_nat TOTAL_CPUS)).

Definition normal_writes : list event :=
  map (fun cpu => Write (path_max cpu) NORMAL_MAX_FREQ)
      (seq 0 (Z.to_nat TOTAL_CPUS)).

(** Every applied flag agrees with the mode. *)
Definition consistent (m : machine) : Prop :=
  forall cpu : nat, (cpu < Z.to_nat TOTAL_CPUS)%nat ->
    freq_set m !! cpu = Some (low_power_mode m).

Fixpoint last_char (s : string) : option ascii :=
  match s with
  | EmptyString => None
  | String c EmptyString => Some c
  | String _ rest => last_char rest
  end.

Definition digit_char (cpu : nat) : ascii := ascii_of_nat (48 + cpu).

(** A received message that the handler reads as "CPU [cpu] came online":
    an accepted length, the signature somewhere in the string, the digit of
    [cpu] as its last character. *)
Definition online_event (n : Z) (msg : string) (cpu : nat) : Prop :=
  0 < n < UEVENT_MSG_LEN /\
  strstr (cstr msg) UEVENT_STRING <> None /\
  last_char (cstr msg) = Some (digit_char cpu) /\
  (cpu < Z.to_nat TOTAL_CPUS)%nat.

(** What the handler does once a message passed the checks of lines
    96-113 with index [cpu]. *)
Definition reconcile (sysfs : oracle) (cpu : nat) : M Z :=
  lpm <- get_low_power_mode ;;
  fs <- get_freq_set cpu ;;
  (if lpm && negb fs
   then low_power_retry sysfs cpu (Z.to_nat RETRY_TIME_CHANGING_FREQ)
   else if negb lpm && fs
   then normal_retry sysfs cpu (Z.to_nat RETRY_TIME_CHANGING_FREQ)
   else ret tt) ;;;
  ret 0.

(** The machine a low-power (resp. normal) mode change leaves: the flag
    of [cpu] is set (cleared) when its maximum-bound write, the one made
    at instant [t + 2 * cpu + 2] (resp. [t + cpu + 1]), succeeds. *)
Definition after_low_power (sysfs : oracle) (m : machine) : machine :=
  {| low_power_mode := true;
     freq_set :=
       foldl (fun fs cpu =>
                if max_ok sysfs (length (log m) + 2 * cpu + 2) cpu
                     LOW_POWER_MAX_FREQ
                then <[cpu := true]> fs else fs)
             (freq_set m) (seq 0 (Z.to_nat TOTAL_CPUS));
     log := log m ++ Write CPUQUIET_CORE_LOCKER "0" :: low_power_writes |}.

Definition after_normal (sysfs : oracle) (m : machine) : machine :=
  {| low_power_mode := false;
     freq_set :=
       foldl (fun fs cpu =>
                if max_ok sysfs (length (log m) + cpu + 1) cpu
                     NORMAL_MAX_FREQ
                then <[cpu := false]> fs else fs)
             (freq_set m) (seq 0 (Z.to_nat TOTAL_CPUS));
     log := log m ++ Write CPUQUIET_CORE_LOCKER "1" :: normal_writes |}.

(** ** Concrete worlds, states and messages *)

(** Every write fails at [open] before instant [T] and succeeds from then
    on. *)
Definition fails_until (T : nat) : oracle :=
  fun t _ _ => if (t <? T)%nat then OpenFails else Written.

(** CPU 1 is offline (its cpufreq directory is absent) before instant [T];
    everything else can be written. *)
Definition cpu1_offline_until (T : nat) : oracle :=
  fun t path _ =>
    if (t <? T)%nat && (String.eqb path (path_min 1)
                        || String.eqb path (path_max 1))
    then OpenFails else Written.

(** CPU 1 is offline from instant [a] up to, not including, instant [b];
    everything else can be written. *)
Definition cpu1_offline_between (a b : nat) : oracle :=
  fun t path _ =>
    if (a <=? t)%nat && (t <? b)%nat
       && (String.eqb path (path_min 1) || String.eqb path (path_max 1))
    then OpenFails else Written.

(** Low-power mode requested while no cap could be written. *)
Definition low_power_unapplied : machine :=
  {| low_power_mode := true;
     freq_set := [false; false; false; false];
     log := [] |}.

(** A kernel uevent datagram: the header string, then NUL-separated
    key=value fields. *)
Definition uevent_msg (header : string) : string :=
  header ++ String Ascii.zero ("ACTION=online" ++ String Ascii.zero
    ("SUBSYSTEM=cpu" ++ String Ascii.zero EmptyString)).

Definition recv_len (msg : string) : Z := Z.of_nat (String.length msg).

(** ** The rest of power.c: interactivity, the listener thread *)

Definition CPUQUIET_DISABLE_LP_CLUSTER : string :=
  "/sys/devices/system/cpu/cpuquiet/tegra_cpuquiet/no_lp".

(** Value of <errno.h>. *)
Definition EINTR : Z := 4.

(** One turn of the loop of [thread_uevent] as the outside decides it:
    [poll] returns -1 and leaves [errno], or it returns and the [recv] of
    [uevent_event] then returns [n] and leaves [msg] in the buffer. *)
Inductive wakeup : Type :=
| PollFails (errno : Z)
| PollReturns (n : Z) (msg : string).

Section Rest.

Variable sysfs : oracle.
Variable noconv_einval : bool.

(** [grouper_power_set_interactive]. *)
Definition grouper_power_set_interactive (on : Z) : M unit :=
  if negb (on =? 0) then
    sysfs_write sysfs CPUQUIET_CORE_LOCKER "1" ;;;
    sysfs_write sysfs CPUQUIET_DISABLE_LP_CLUSTER "1" ;;;
    sysfs_write sysfs
      "/sys/devices/system/cpu/cpufreq/interactive/go_hispeed_load" "75" ;;;
    sysfs_write sysfs
      "/sys/devices/system/cpu/cpuquiet/balanced/core_lock_period"
      "3000000" ;;;
    sysfs_write sysfs
      "/sys/devices/system/cpu/cpuquiet/balanced/core_lock_count" "2" ;;;
    ret tt
  else
    sysfs_write sysfs CPUQUIET_CORE_LOCKER "0" ;;;
    sysfs_write sysfs CPUQUIET_DISABLE_LP_CLUSTER "0" ;;;
    sysfs_write sysfs
      "/sys/devices/system/cpu/cpufreq/interactive/go_hispeed_load" "85" ;;;
    sysfs_write sysfs
      "/sys/devices/system/cpu/cpuquiet/balanced/core_lock_period"
      "200000" ;;;
    sysfs_write sysfs
      "/sys/devices/system/cpu/cpuquiet/balanced/core_lock_count" "0" ;;;
    ret tt.

(** The [while (1)] loop of [thread_uevent] run over the wake-ups the
    outside delivers, oldest first.  The result is [true] when the loop
    was left through [break] (the thread returns), [false] when the
    thread is back in [poll] after the last wake-up. *)
Fixpoint thread_uevent (ws : list wakeup) : M bool :=
  match ws with
  | [] => ret false
  | PollFails errno :: ws' =>
      if errno =? EINTR then thread_uevent ws' else ret true
  | PollReturns n msg :: ws' =>
      uevent_event sysfs noconv_einval n msg ;;; thread_uevent ws'
  end.

End Rest.

(** ** Whole runs *)

(** The calls that reach the policy state or the endpoints, each run to
    its end before the next starts. *)
Inductive call : Type :=
| PowerHint (hint data : Z)
| SetInteractive (on : Z)
| Uevent (n : Z) (msg : string).

Definition run_call (sysfs : oracle) (noconv_einval : bool)
  (m : machine) (c : call) : machine :=
  match c with
  | PowerHint hint data => snd (grouper_power_hint sysfs hint data m)
  | SetInteractive on => snd (grouper_power_set_interactive sysfs on m)
  | Uevent n msg => snd (uevent_event sysfs noconv_einval n msg m)
  end.

(** The machine after the calls [cs], made in this order from the static
    initial state. *)
Definition run (sysfs : oracle) (noconv_einval : bool) (cs : list call)
  : machine :=
  foldl (run_call sysfs noconv_einval) machine_init cs.

(** The value an endpoint holds after the outside calls [l], the first of
    which was made at instant [t]: the value of the last write to it that
    succeeded, [acc] when there was none.  (A failed write leaves the
    endpoint alone, and nothing else writes it.) *)
Fixpoint last_written (sysfs : oracle) (path : string) (t : nat)
  (l : list event) (acc : option string) : option string :=
  match l with
  | [] => acc
  | Write p s :: l' =>
      last_written sysfs path (S t) l'
        (if String.eqb p path && ok (sysfs t p s) then Some s else acc)
  | Usleep _ :: l' => last_written sysfs path (S t) l' acc
  end.

Definition endpoint_value (sysfs : oracle) (m : machine) (path : string)
  : option string :=
  last_written sysfs path 0 (log m) None.

(** The bookkeeping is sound: there are [TOTAL_CPUS] flags, and the flag
    of a CPU is set exactly when its maximum-frequency endpoint holds the
    low-power cap. *)
Definition applied_sound (sysfs : oracle) (m : machine) : Prop :=
  length (freq_set m) = Z.to_nat TOTAL_CPUS /\
  forall cpu : nat, (cpu < Z.to_nat TOTAL_CPUS)%nat ->
    (freq_set m !! cpu = Some true <->
     endpoint_value sysfs m (path_max cpu) = Some LOW_POWER_MAX_FREQ).

(** Is [path] one of the per-CPU maximum-frequency endpoints? *)
Definition is_max_path (path : string) : bool :=
  existsb (String.eqb path) cpu_path_max.

(** A computation keeps a property of the machine. *)
Definition preserves {A : Type} (P : machine -> Prop) (c : M A) : Prop :=
  forall m : machine, P m -> P (snd (c m)).

(** The writes of one round of the normal branch, and what one failed
    round leaves in the log. *)
Definition normal_round (cpu : nat) : list event :=
  [Write (path_max cpu) NORMAL_MAX_FREQ].

Definition normal_failed_round (cpu : nat) : list event :=
  normal_round cpu ++ [Usleep SLEEP_USEC_BETWN_RETRY].

(** The messages the listener hands to [uevent_event]: those received
    before the first [poll] failure other than [EINTR]. *)
Fixpoint delivered (ws : list wakeup) : list (Z * string) :=
  match ws with
  | [] => []
  | PollFails errno :: ws' =>
      if errno =? EINTR then delivered ws' else []
  | PollReturns n msg :: ws' => (n, msg) :: delivered ws'
  end.

(** Does the listener leave its loop on these wake-ups? *)
Definition fatal (ws : list wakeup) : bool :=
  existsb (fun w => match w with
                    | PollFails errno => negb (errno =? EINTR)
                    | PollReturns _ _ => false
                    end) ws.

(** Low-power mode with every cap applied, and normal mode with the cap
    of CPU 2 still applied. *)
Definition low_power_applied : machine :=
  {| low_power_mode := true;
     freq_set := [true; true; true; true];
     log := [] |}.

Definition normal_cpu2_capped : machine :=
  {| low_power_mode := false;
     freq_set := [false; false; true; false];
     log := [] |}.

(** Is [path] one of the per-CPU frequency endpoints? *)
Definition is_freq_path (path : string) : bool :=
  is_max_path path || existsb (String.eqb path) cpu_path_min.

(** The mode the last POWER_HINT_LOW_POWER call of [cs] asked for, [b]
    when there is none. *)
Definition requested_mode (b : bool) (cs : list call) : bool :=
  foldl (fun b c =>
           match c with
           | PowerHint hint data =>
               if hint =? POWER_HINT_LOW_POWER then negb (data =? 0) else b
           | _ => b
           end) b cs.

(** The handler applied to a received message. *)
Definition handle (sysfs : oracle) (noconv_einval : bool)
  (m : machine) (r : Z * string) : machine :=
  snd (uevent_event sysfs noconv_einval (fst r) (snd r) m).


(** ** Lemmas on the building blocks *)

Section Blocks.

Variable sysfs : oracle.
Variable noconv_einval : bool.

Lemma cpus_eq : seq 0 (Z.to_nat TOTAL_CPUS) = [0; 1; 2; 3]%nat.
Proof. reflexivity. Qed.

Lemma sysfs_write_run (path s : string) (m : machine) :
  sysfs_write sysfs path s m =
    (if ok (sysfs (length (log m)) path s) then 0 else -1,
     {| low_power_mode := low_power_mode m;
        freq_set := freq_set m;
        log := log m ++ [Write path s] |}).
Proof.
  unfold sysfs_write, bind, emit, ret.
  destruct (sysfs (length (log m)) path s); reflexivity.
Qed.

Lemma low_power_body_run (cpu : nat) (m : machine) :
  low_power_body sysfs cpu m =
    (tt,
     {| low_power_mode := low_power_mode m;
        freq_set :=
          if max_ok sysfs (S (length (log m))) cpu LOW_POWER_MAX_FREQ
          then <[cpu := true]> (freq_set m) else freq_set m;
        log := log m ++ low_power_round cpu |}).
Proof.
  unfold low_power_body, bind at 1.
  rewrite sysfs_write_run. unfold bind. rewrite sysfs_write_run.
  cbn [log low_power_mode freq_set].
  rewrite length_app, Nat.add_1_r. unfold max_ok.
  rewrite <- app_assoc.
  destruct (ok _); reflexivity.
Qed.

Lemma normal_body_run (cpu : nat) (m : machine) :
  normal_body sysfs cpu m =
    (tt,
     {| low_power_mode := low_power_mode m;
        freq_set :=
          if max_ok sysfs (length (log m)) cpu NORMAL_MAX_FREQ
          then <[cpu := false]> (freq_set m) else freq_set m;
        log := log m ++ [Write (path_max cpu) NORMAL_MAX_FREQ] |}).
Proof.
  unfold normal_body, bind. rewrite sysfs_write_run. unfold max_ok.
  destruct (ok _); reflexivity.
Qed.

Lemma hint_low_power_run (data : Z) (m : machine) :
  data <> 0 ->
  grouper_power_hint sysfs POWER_HINT_LOW_POWER data m =
    (tt, after_low_power sysfs m).
Proof.
  intros Hd. unfold grouper_power_hint.
  replace (POWER_HINT_LOW_POWER =? POWER_HINT_INTERACTION) with false
    by reflexivity.
  rewrite Z.eqb_refl.
  destruct (Z.eqb_spec data 0) as [|_]; [contradiction|].
  cbn [negb]. unfold bind at 1. rewrite sysfs_write_run.
  unfold bind at 1, set_low_power_mode.
  unfold for_each_cpu. rewrite cpus_eq. cbn [foldr].
  unfold bind, ret. rewrite !low_power_body_run.
  cbn [log low_power_mode freq_set].
  unfold after_low_power. f_equal. f_equal.
  - rewrite cpus_eq. cbn [foldl].
    rewrite !length_app. cbn [length low_power_round].
    repeat match goal with
           | |- context [max_ok sysfs ?a ?c ?s] =>
               lazymatch a with
               | (length (log m) + _ + 2)%nat => fail
               | _ => replace a with (length (log m) + 2 * c + 2)%nat by lia
               end
           end.
    reflexivity.
  - rewrite <- !app_assoc. reflexivity.
Qed.

Lemma hint_normal_run (m : machine) :
  grouper_power_hint sysfs POWER_HINT_LOW_POWER 0 m = (tt, after_normal sysfs m).
Proof.
  unfold grouper_power_hint.
  replace (POWER_HINT_LOW_POWER =? POWER_HINT_INTERACTION) with false
    by reflexivity.
  rewrite !Z.eqb_refl.
  cbn [negb]. unfold bind at 1. rewrite sysfs_write_run.
  unfold bind at 1, set_low_power_mode.
  unfold for_each_cpu. rewrite cpus_eq. cbn [foldr].
  unfold bind, ret. rewrite !normal_body_run.
  cbn [log low_power_mode freq_set].
  unfold after_normal. f_equal. f_equal.
  - rewrite cpus_eq. cbn [foldl].
    rewrite !length_app. cbn [length].
    repeat match goal with
           | |- context [max_ok sysfs ?a ?c ?s] =>
               lazymatch a with
               | (length (log m) + _ + 1)%nat => fail
               | _ => replace a with (length (log m) + c + 1)%nat by lia
               end
           end.
    reflexivity.
  - rewrite <- !app_assoc. reflexivity.
Qed.

(** One turn of the low-power retry loop. *)
Lemma low_power_retry_step (cpu retry : nat) (m : machine) :
  low_power_retry sysfs cpu (S retry) m =
    if max_ok sysfs (length (log m) + 1) cpu LOW_POWER_MAX_FREQ
    then (tt, {| low_power_mode := low_power_mode m;
                 freq_set := <[cpu := true]> (freq_set m);
                 log := log m ++ low_power_round cpu |})
    else low_power_retry sysfs cpu retry
           {| low_power_mode := low_power_mode m;
              freq_set := freq_set m;
              log := log m ++ low_power_failed_round cpu |}.
Proof.
  cbn [low_power_retry]. unfold bind at 1. rewrite sysfs_write_run.
  unfold bind at 1. rewrite sysfs_write_run.
  cbn [log low_power_mode freq_set]. rewrite length_app. cbn [length].
  unfold max_ok. rewrite <- app_assoc.
  destruct (ok _); cbn [Z.eqb]; [reflexivity|].
  unfold bind, usleep, emit. cbn [log low_power_mode freq_set].
  rewrite <- app_assoc. reflexivity.
Qed.

Lemma low_power_retry_success (cpu : nat) :
  forall (k retry : nat) (m : machine),
    (k < retry)%nat ->
    (forall j, (j < k)%nat ->
       max_ok sysfs (length (log m) + 3 * j + 1) cpu LOW_POWER_MAX_FREQ
       = false) ->
    max_ok sysfs (length (log m) + 3 * k + 1) cpu LOW_POWER_MAX_FREQ
    = true ->
    low_power_retry sysfs cpu retry m =
      (tt, {| low_power_mode := low_power_mode m;
              freq_set := <[cpu := true]> (freq_set m);
              log := log m
                     ++ concat (replicate k (low_power_failed_round cpu))
                     ++ low_power_round cpu |}).
Proof.
  induction k as [|k IH]; intros retry m Hlt Hfail Hok;
    (destruct retry as [|retry]; [lia|]); rewrite low_power_retry_step.
  - replace (length (log m) + 3 * 0 + 1)%nat
      with (length (log m) + 1)%nat in Hok by lia.
    rewrite Hok. reflexivity.
  - pose proof (Hfail 0%nat ltac:(lia)) as H0.
    replace (length (log m) + 3 * 0 + 1)%nat
      with (length (log m) + 1)%nat in H0 by lia.
    rewrite H0. rewrite IH; cbn [log low_power_mode freq_set].
    + cbn [replicate concat]. rewrite <- !app_assoc. reflexivity.
    + lia.
    + intros j Hj. rewrite length_app. cbn [length low_power_failed_round
        low_power_round app].
      rewrite <- (Hfail (S j) ltac:(lia)). f_equal. lia.
    + rewrite length_app. cbn [length low_power_failed_round
        low_power_round app].
      rewrite <- Hok. f_equal. lia.
Qed.

Lemma low_power_retry_exhausted (cpu : nat) :
  forall (retry : nat) (m : machine),
    (forall j, (j < retry)%nat ->
       max_ok sysfs (length (log m) + 3 * j + 1) cpu LOW_POWER_MAX_FREQ
       = false) ->
    low_power_retry sysfs cpu retry m =
      (tt, {| low_power_mode := low_power_mode m;
              freq_set := freq_set m;
              log := log m
                     ++ concat (replicate retry
                                  (low_power_failed_round cpu)) |}).
Proof.
  induction retry as [|retry IH]; intros m Hfail.
  - cbn. rewrite app_nil_r. destruct m; reflexivity.
  - rewrite low_power_retry_step.
    pose proof (Hfail 0%nat ltac:(lia)) as H0.
    replace (length (log m) + 3 * 0 + 1)%nat
      with (length (log m) + 1)%nat in H0 by lia.
    rewrite H0. rewrite IH; cbn [log low_power_mode freq_set].
    + cbn [replicate concat]. rewrite <- !app_assoc. reflexivity.
    + intros j Hj. rewrite length_app. cbn [length low_power_failed_round
        low_power_round app].
      rewrite <- (Hfail (S j) ltac:(lia)). f_equal. lia.
Qed.

(** Below a bound, a boolean test either fails everywhere or holds at a
    least index. *)
Lemma first_true (f : nat -> bool) (n : nat) :
  (forall j : nat, (j < n)%nat -> f j = false) \/
  (exists k0 : nat, (k0 < n)%nat /\ f k0 = true /\
     forall j : nat, (j < k0)%nat -> f j = false).
Proof.
  induction n as [|n [Hnone | (k0 & Hlt & Hk0 & Hmin)]].
  - left. intros j Hj. lia.
  - destruct (f n) eqn:Hn.
    + right. exists n. split; [lia|]. split; assumption.
    + left. intros j Hj. destruct (Nat.eq_dec j n) as [->|Hne];
        [assumption | apply Hnone; lia].
  - right. exists k0. split; [lia|]. split; assumption.
Qed.

(** ** Parsing the CPU index *)

Lemma offset_last (s : string) (c : ascii) :
  last_char s = Some c ->
  offset s (String.length s - 1) = String c EmptyString.
Proof.
  induction s as [|a s IH]; [discriminate|].
  destruct s as [|b s].
  - cbn. intros [= ->]. reflexivity.
  - intros H. change (last_char (String a (String b s)))
      with (last_char (String b s)) in H.
    specialize (IH H). cbn [String.length] in *.
    replace (S (S (String.length s)) - 1)%nat
      with (S (S (String.length s) - 1)) by lia.
    exact IH.
Qed.

Lemma strtol_digit (cpu : nat) :
  (cpu < Z.to_nat TOTAL_CPUS)%nat ->
  strtol noconv_einval (String (digit_char cpu) EmptyString)
  = (Z.of_nat cpu, 0).
Proof.
  intros H. change (Z.to_nat TOTAL_CPUS) with 4%nat in H.
  destruct cpu as [|[|[|[|cpu]]]]; [reflexivity ..|lia].
Qed.

(** A message that passes the checks of lines 96-113 reaches the locked
    region with the digit it ends in. *)
Lemma uevent_event_online (n : Z) (msg : string) (cpu : nat) (m : machine) :
  online_event n msg cpu ->
  uevent_event sysfs noconv_einval n msg m = reconcile sysfs cpu m.
Proof.
  intros ([Hn0 Hn1] & Hsig & Hlast & Hcpu). unfold uevent_event.
  destruct (Z.leb_spec n 0) as [|_]; [lia|].
  destruct (Z.geb_spec n UEVENT_MSG_LEN) as [|_]; [lia|].
  destruct (strstr (cstr msg) UEVENT_STRING) as [pos|]; [|congruence].
  unfold strlen.
  replace (Z.to_nat (Z.of_nat (String.length (cstr msg)) - 1))
    with (String.length (cstr msg) - 1)%nat by lia.
  rewrite (offset_last _ _ Hlast), (strtol_digit _ Hcpu).
  change (Z.to_nat TOTAL_CPUS) with 4%nat in Hcpu.
  destruct (Z.ltb_spec (Z.of_nat cpu) 0) as [|_]; [lia|].
  destruct (Z.geb_spec (Z.of_nat cpu) TOTAL_CPUS) as [Hge|_];
    [unfold TOTAL_CPUS in Hge; lia|].
  cbn [Z.eqb EINVAL ERANGE orb]. rewrite Nat2Z.id. reflexivity.
Qed.

Lemma reconcile_low_power (cpu : nat) (m : machine) :
  low_power_mode m = true ->
  freq_set m !! cpu = Some false ->
  reconcile sysfs cpu m =
    (0, snd (low_power_retry sysfs cpu 20 m)).
Proof.
  intros Hlpm Hfs.
  unfold reconcile, get_low_power_mode, get_freq_set, bind, ret.
  rewrite Hlpm, Hfs. cbn [default from_option id andb negb].
  change (Z.to_nat RETRY_TIME_CHANGING_FREQ) with 20%nat.
  destruct (low_power_retry sysfs cpu 20 m). reflexivity.
Qed.

(** Re-writing flags that already hold the written value changes
    nothing. *)
Lemma foldl_insert_id (b : bool) (c : nat -> bool) (cpus : list nat) :
  forall fs : list bool,
    (forall cpu, In cpu cpus -> fs !! cpu = Some b) ->
    foldl (fun fs cpu => if c cpu then <[cpu := b]> fs else fs) fs cpus
    = fs.
Proof.
  induction cpus as [|cpu cpus IH]; intros fs H; [reflexivity|].
  cbn [foldl].
  replace (if c cpu then <[cpu := b]> fs else fs) with fs.
  - apply IH. intros i Hi. apply H. right. exact Hi.
  - destruct (c cpu); [|reflexivity].
    symmetry. apply list_insert_id, H. left. reflexivity.
Qed.

(** The guard of line 111: an extracted index outside [0, TOTAL_CPUS)
    stops the handler before the locked region. *)
Lemma uevent_event_guard (n : Z) (msg : string) (m : machine) :
  let cp := cstr msg in
  let cpu :=
    fst (strtol noconv_einval (offset cp (Z.to_nat (strlen cp - 1)))) in
  cpu < 0 \/ cpu >= TOTAL_CPUS ->
  snd (uevent_event sysfs noconv_einval n msg m) = m.
Proof.
  intros cp cpu H. unfold uevent_event.
  destruct (n <=? 0); [reflexivity|].
  destruct (n >=? UEVENT_MSG_LEN); [reflexivity|].
  fold cp. destruct (strstr cp UEVENT_STRING); [|reflexivity].
  subst cpu.
  destruct (strtol noconv_einval _) as [v e]. cbn [fst] in H.
  destruct (e =? EINVAL), (e =? ERANGE); cbn [orb]; try reflexivity.
  destruct (Z.ltb_spec v 0); cbn [orb]; [reflexivity|].
  destruct (Z.geb_spec v TOTAL_CPUS); [reflexivity|lia].
Qed.

End Blocks.

(** [low_power_unapplied] is what a low-power hint leaves of the initial
    state when every write fails. *)
Fact low_power_unapplied_reachable :
  let m := snd (grouper_power_hint (always OpenFails) POWER_HINT_LOW_POWER 1
                  machine_init) in
  low_power_mode m = low_power_mode low_power_unapplied /\
  freq_set m = freq_set low_power_unapplied.
Proof. split; reflexivity. Qed.

(** Discharges [online_event] on a concrete message. *)
Ltac solve_online_event :=
  unfold online_event;
  split; [split; reflexivity|];
  split; [vm_compute; discriminate|];
  split; [reflexivity | vm_compute; lia].

(** ** Properties *)

(** C7. A receive that returns nothing or an error ([n <= 0]) and a message
    that fills the buffer ([n >= UEVENT_MSG_LEN], 2048) are rejected before
    the message is looked at: whatever the buffer holds, the handler
    returns -1, changes neither [low_power_mode] nor [freq_set], and makes
    no endpoint write. *)
Theorem uevent_event_bad_length
  (sysfs : oracle) (noconv_einval : bool) (n : Z) (msg : string)
  (m : machine) :
  n <= 0 \/ n >= UEVENT_MSG_LEN ->
  uevent_event sysfs noconv_einval n msg m = (-1, m).
Proof.
  intros H. unfold uevent_event.
  destruct (Z.leb_spec n 0) as [|Hpos]; [reflexivity|].
  destruct (Z.geb_spec n UEVENT_MSG_LEN) as [|Hlt]; [reflexivity|lia].
Qed.

Lemma uevent_event_bad_length_witness :
  uevent_event (always Written) false 2048
    (uevent_msg "online@/devices/system/cpu/cpu1") low_power_unapplied
  = (-1, low_power_unapplied)
  /\ uevent_event (always Written) false 0
       (uevent_msg "online@/devices/system/cpu/cpu1") low_power_unapplied
     = (-1, low_power_unapplied).
Proof.
  split; apply uevent_event_bad_length; [right | left]; unfold UEVENT_MSG_LEN; lia.
Defined.

(** C6. An online event for a valid CPU index whose flag already agrees
    with the mode (neither low-power with the flag clear nor normal with
    the flag set) makes no endpoint write and leaves [low_power_mode] and
    every [freq_set] flag as they were. *)
Theorem uevent_event_consistent_noop
  (sysfs : oracle) (noconv_einval : bool) (n : Z) (msg : string)
  (cpu : nat) (m : machine) :
  online_event n msg cpu ->
  ~ (low_power_mode m = true /\ default false (freq_set m !! cpu) = false) ->
  ~ (low_power_mode m = false /\ default false (freq_set m !! cpu) = true) ->
  uevent_event sysfs noconv_einval n msg m = (0, m).
Proof.
  intros Hev Hlow Hnorm. rewrite (uevent_event_online _ _ _ _ _ _ Hev).
  unfold reconcile, bind, get_low_power_mode, get_freq_set, ret.
  destruct (low_power_mode m), (default false (freq_set m !! cpu));
    cbn [andb negb]; try reflexivity; exfalso; auto.
Qed.

Lemma uevent_event_consistent_noop_witness :
  uevent_event (always Written) false
    (recv_len (uevent_msg "online@/devices/system/cpu/cpu2"))
    (uevent_msg "online@/devices/system/cpu/cpu2") machine_init
  = (0, machine_init).
Proof.
  apply (uevent_event_consistent_noop _ _ _ _ 2%nat).
  - solve_online_event.
  - intros [H _]. discriminate H.
  - intros [_ H]. discriminate H.
Defined.

(** C5. An online event for a valid CPU index, received in low-power mode
    while that CPU's flag is clear, runs at most 20 rounds.  Each round
    writes the minimum bound, then the maximum bound, and only the outcome
    of the maximum-bound write is looked at: the first round [k] whose
    maximum-bound write succeeds sets the flag and ends the loop, after [k]
    failed rounds each followed by a 200 us sleep; when all 20
    maximum-bound writes fail the flag stays clear.  The handler returns 0
    and the mode is untouched either way. *)
Theorem uevent_event_low_power_retry
  (sysfs : oracle) (noconv_einval : bool) (n : Z) (msg : string)
  (cpu : nat) (m : machine) :
  online_event n msg cpu ->
  low_power_mode m = true ->
  freq_set m !! cpu = Some false ->
  let t := length (log m) in
  let r := fst (uevent_event sysfs noconv_einval n msg m) in
  let m' := snd (uevent_event sysfs noconv_einval n msg m) in
  r = 0 /\
  low_power_mode m' = true /\
  (forall k : nat,
     (k < 20)%nat ->
     (forall j : nat, (j < k)%nat ->
        max_ok sysfs (t + 3 * j + 1) cpu LOW_POWER_MAX_FREQ = false) ->
     max_ok sysfs (t + 3 * k + 1) cpu LOW_POWER_MAX_FREQ = true ->
     freq_set m' = <[cpu := true]> (freq_set m) /\
     freq_set m' !! cpu = Some true /\
     log m' = (log m ++ concat (replicate k (low_power_failed_round cpu))
                     ++ low_power_round cpu)%list) /\
  ((forall j : nat, (j < 20)%nat ->
      max_ok sysfs (t + 3 * j + 1) cpu LOW_POWER_MAX_FREQ = false) ->
   freq_set m' = freq_set m /\
   freq_set m' !! cpu = Some false /\
   log m' = (log m ++ concat (replicate 20 (low_power_failed_round cpu)))%list).
Proof.
  intros Hev Hlpm Hfs t r m'. subst r m'.
  rewrite (uevent_event_online _ _ _ _ _ _ Hev).
  rewrite (reconcile_low_power _ _ _ Hlpm Hfs).
  destruct (first_true (fun j => max_ok sysfs (t + 3 * j + 1) cpu
                                   LOW_POWER_MAX_FREQ) 20)
    as [Hnone | (k0 & Hk0 & Hok & Hmin)].
  - rewrite (low_power_retry_exhausted sysfs cpu 20 m Hnone).
    cbn [fst snd log low_power_mode freq_set].
    split; [reflexivity|]. split; [assumption|]. split.
    + intros k Hk _ Hok. rewrite (Hnone k Hk) in Hok. discriminate.
    + intros _. auto.
  - rewrite (low_power_retry_success sysfs cpu k0 20 m Hk0 Hmin Hok).
    cbn [fst snd log low_power_mode freq_set].
    split; [reflexivity|]. split; [assumption|]. split.
    + intros k Hk Hfail Hokk.
      assert (k = k0) as ->.
      { destruct (Nat.lt_trichotomy k k0) as [Hlt|[Heq|Hgt]]; [|exact Heq|].
        - rewrite (Hmin k Hlt) in Hokk. discriminate.
        - rewrite (Hfail k0 Hgt) in Hok. discriminate. }
      split; [reflexivity|]. split; [|reflexivity].
      apply list_lookup_insert_eq. apply lookup_lt_Some in Hfs. exact Hfs.
    + intros Hnone. rewrite (Hnone k0 Hk0) in Hok. discriminate.
Qed.

Lemma uevent_event_low_power_retry_witness :
  let msg := uevent_msg "online@/devices/system/cpu/cpu2" in
  let m' := snd (uevent_event (fails_until 7) false (recv_len msg) msg
                   low_power_unapplied) in
  freq_set m' = [false; false; true; false] /\
  log m' = (concat (replicate 2 (low_power_failed_round 2))
            ++ low_power_round 2)%list.
Proof.
  intros msg m'.
  destruct (uevent_event_low_power_retry (fails_until 7) false
              (recv_len msg) msg 2%nat low_power_unapplied)
    as (_ & _ & Hsucc & _).
  - solve_online_event.
  - reflexivity.
  - reflexivity.
  - destruct (Hsucc 2%nat) as (Hfs & _ & Hlog).
    + lia.
    + intros j Hj. destruct j as [|[|j]]; [reflexivity | reflexivity | lia].
    + reflexivity.
    + split; [exact Hfs | exact Hlog].
Defined.

(** C8. After a POWER_HINT_LOW_POWER call, [low_power_mode] is true exactly
    when [data] is non-null, under every oracle (however many of the
    per-CPU writes fail): the assignment is made before the per-CPU loop,
    which runs from a machine whose mode is already the requested one and
    never touches it. *)
Theorem power_hint_sets_mode
  (sysfs : oracle) (data : Z) (m : machine) :
  let requested := negb (data =? 0) in
  low_power_mode (snd (grouper_power_hint sysfs POWER_HINT_LOW_POWER data m))
  = requested /\
  grouper_power_hint sysfs POWER_HINT_LOW_POWER data m =
    for_each_cpu (if requested then low_power_body sysfs
                  else normal_body sysfs)
      {| low_power_mode := requested;
         freq_set := freq_set m;
         log := log m ++ [Write CPUQUIET_CORE_LOCKER
                            (if requested then "0" else "1")] |}.
Proof.
  intros requested. subst requested. split.
  - destruct (Z.eqb_spec data 0) as [->|Hd].
    + rewrite hint_normal_run. reflexivity.
    + rewrite (hint_low_power_run sysfs data m Hd). reflexivity.
  - unfold grouper_power_hint.
    replace (POWER_HINT_LOW_POWER =? POWER_HINT_INTERACTION) with false
      by reflexivity.
    rewrite Z.eqb_refl.
    destruct (data =? 0); cbn [negb]; unfold bind at 1;
      rewrite sysfs_write_run; reflexivity.
Qed.

(** C9. Every POWER_HINT_LOW_POWER call first writes the core-lock trigger
    ("0" towards low-power, "1" towards normal) and only then the per-CPU
    frequency endpoints, whatever the flags were: the calls it adds to the
    log are that write followed by the per-CPU writes of the branch. *)
Theorem power_hint_core_lock_first
  (sysfs : oracle) (data : Z) (m : machine) :
  log (snd (grouper_power_hint sysfs POWER_HINT_LOW_POWER data m)) =
    (log m
     ++ Write CPUQUIET_CORE_LOCKER (if data =? 0 then "1" else "0")
        :: (if data =? 0 then normal_writes else low_power_writes))%list.
Proof.
  destruct (Z.eqb_spec data 0) as [->|Hd].
  - rewrite hint_normal_run. reflexivity.
  - rewrite (hint_low_power_run sysfs data m Hd). reflexivity.
Qed.

(** C10. A hint other than POWER_HINT_INTERACTION and POWER_HINT_LOW_POWER
    does nothing: no endpoint write, [low_power_mode] and every [freq_set]
    flag unchanged. *)
Theorem power_hint_other_noop
  (sysfs : oracle) (hint data : Z) (m : machine) :
  hint <> POWER_HINT_INTERACTION ->
  hint <> POWER_HINT_LOW_POWER ->
  grouper_power_hint sysfs hint data m = (tt, m).
Proof.
  intros Hi Hl. unfold grouper_power_hint.
  destruct (Z.eqb_spec hint POWER_HINT_INTERACTION) as [|_]; [contradiction|].
  destruct (Z.eqb_spec hint POWER_HINT_LOW_POWER) as [|_]; [contradiction|].
  reflexivity.
Qed.

Lemma power_hint_other_noop_witness :
  grouper_power_hint (always Written) 1 1 low_power_unapplied
  = (tt, low_power_unapplied).
Proof.
  apply power_hint_other_noop; unfold POWER_HINT_INTERACTION,
    POWER_HINT_LOW_POWER; lia.
Defined.

(** C1, as the code has it.  Two POWER_HINT_LOW_POWER calls in a row with
    the same [data]: when every flag agrees with the mode after the first
    call, the second call changes neither [low_power_mode] nor any
    [freq_set] flag, but it does write again, since this path never reads
    the flags: the core-lock trigger and then every per-CPU endpoint (9
    writes towards low-power, 5 towards normal). *)
Theorem power_hint_twice
  (sysfs : oracle) (data : Z) (m : machine) :
  let m1 := snd (grouper_power_hint sysfs POWER_HINT_LOW_POWER data m) in
  let m2 := snd (grouper_power_hint sysfs POWER_HINT_LOW_POWER data m1) in
  consistent m1 ->
  low_power_mode m2 = low_power_mode m1 /\
  freq_set m2 = freq_set m1 /\
  log m2 =
    (log m1
     ++ Write CPUQUIET_CORE_LOCKER (if data =? 0 then "1" else "0")
        :: (if data =? 0 then normal_writes else low_power_writes))%list.
Proof.
  intros m1 m2 Hc. subst m2.
  assert (forall cpu, In cpu (seq 0 (Z.to_nat TOTAL_CPUS)) ->
            freq_set m1 !! cpu = Some (low_power_mode m1)) as Hall.
  { intros cpu Hin. apply Hc. apply in_seq in Hin. lia. }
  destruct (Z.eqb_spec data 0) as [->|Hd].
  - rewrite hint_normal_run. cbn [snd after_normal low_power_mode freq_set log].
    assert (low_power_mode m1 = false) as Hm
      by (subst m1; rewrite hint_normal_run; reflexivity).
    rewrite Hm in *. repeat split. apply foldl_insert_id. exact Hall.
  - rewrite (hint_low_power_run sysfs data m1 Hd).
    cbn [snd after_low_power low_power_mode freq_set log].
    assert (low_power_mode m1 = true) as Hm
      by (subst m1; rewrite (hint_low_power_run sysfs data m Hd);
          reflexivity).
    rewrite Hm in *. repeat split. apply foldl_insert_id. exact Hall.
Qed.

Lemma power_hint_twice_witness :
  let m1 := snd (grouper_power_hint (always Written) POWER_HINT_LOW_POWER 1
                   machine_init) in
  let m2 := snd (grouper_power_hint (always Written) POWER_HINT_LOW_POWER 1
                   m1) in
  low_power_mode m2 = low_power_mode m1 /\
  freq_set m2 = freq_set m1 /\
  log m2 =
    (log m1 ++ Write CPUQUIET_CORE_LOCKER "0" :: low_power_writes)%list.
Proof.
  intros m1 m2.
  apply (power_hint_twice (always Written) 1 machine_init).
  intros cpu H. change (Z.to_nat TOTAL_CPUS) with 4%nat in H.
  destruct cpu as [|[|[|[|cpu]]]]; [reflexivity ..|lia].
Defined.

(** C1, as the spec words it, fails: from the initial state with every
    write succeeding, the first low-power hint makes every flag consistent
    and the second one still performs nine endpoint writes. *)
Lemma power_hint_twice_not_silent :
  let m1 := snd (grouper_power_hint (always Written) POWER_HINT_LOW_POWER 1
                   machine_init) in
  let m2 := snd (grouper_power_hint (always Written) POWER_HINT_LOW_POWER 1
                   m1) in
  low_power_mode m1 = true /\
  freq_set m1 = [true; true; true; true] /\
  length (log m2) = (length (log m1) + 9)%nat /\
  log m2 <> log m1.
Proof.
  intros m1 m2. repeat split. intros H.
  apply (f_equal (@length event)) in H. vm_compute in H. discriminate H.
Qed.

(** C2: the message whose header ends in "-1", received in low-power mode
    while no cap is applied, is not rejected: only the last character is
    converted, the index is 1, and the handler writes both endpoints of
    CPU 1 and sets its flag (whichever way the C library treats an empty
    conversion). *)
Theorem uevent_event_minus_one_accepted :
  forall noconv_einval : bool,
    let msg := uevent_msg "online@/devices/system/cpu/cpu-1" in
    uevent_event (always Written) noconv_einval (recv_len msg) msg
      low_power_unapplied
    = (0, {| low_power_mode := true;
             freq_set := [false; true; false; false];
             log := low_power_round 1 |}).
Proof. intros []; reflexivity. Qed.

(** C3: the message whose header ends in "12" is handled as CPU 2, not
    dropped as index 12; and, with a C library that leaves [errno] alone
    when nothing is converted, a header that ends in a letter is handled as
    CPU 0 instead of being dropped. *)
Theorem uevent_event_last_character_only :
  (forall noconv_einval : bool,
     let msg := uevent_msg "online@/devices/system/cpu/cpu12" in
     uevent_event (always Written) noconv_einval (recv_len msg) msg
       low_power_unapplied
     = (0, {| low_power_mode := true;
              freq_set := [false; false; true; false];
              log := low_power_round 2 |})) /\
  (let msg := uevent_msg "online@/devices/system/cpu/cpufreq" in
   uevent_event (always Written) false (recv_len msg) msg
     low_power_unapplied
   = (0, {| low_power_mode := true;
            freq_set := [true; false; false; false];
            log := low_power_round 0 |})).
Proof. split; [intros []; reflexivity | reflexivity]. Qed.

(** ** Further lemmas: the normal branch, the shape of a handler call *)

Section Handler.

Variable sysfs : oracle.
Variable noconv_einval : bool.

(** One turn of the normal retry loop. *)
Lemma normal_retry_step (cpu retry : nat) (m : machine) :
  normal_retry sysfs cpu (S retry) m =
    if max_ok sysfs (length (log m)) cpu NORMAL_MAX_FREQ
    then (tt, {| low_power_mode := low_power_mode m;
                 freq_set := <[cpu := false]> (freq_set m);
                 log := log m ++ normal_round cpu |})
    else normal_retry sysfs cpu retry
           {| low_power_mode := low_power_mode m;
              freq_set := freq_set m;
              log := log m ++ normal_failed_round cpu |}.
Proof.
  cbn [normal_retry]. unfold bind at 1. rewrite sysfs_write_run.
  unfold max_ok. destruct (ok _); cbn [Z.eqb]; [reflexivity|].
  unfold bind, usleep, emit. cbn [log low_power_mode freq_set].
  rewrite <- app_assoc. reflexivity.
Qed.

Lemma normal_retry_success (cpu : nat) :
  forall (k retry : nat) (m : machine),
    (k < retry)%nat ->
    (forall j, (j < k)%nat ->
       max_ok sysfs (length (log m) + 2 * j) cpu NORMAL_MAX_FREQ = false) ->
    max_ok sysfs (length (log m) + 2 * k) cpu NORMAL_MAX_FREQ = true ->
    normal_retry sysfs cpu retry m =
      (tt, {| low_power_mode := low_power_mode m;
              freq_set := <[cpu := false]> (freq_set m);
              log := log m
                     ++ concat (replicate k (normal_failed_round cpu))
                     ++ normal_round cpu |}).
Proof.
  induction k as [|k IH]; intros retry m Hlt Hfail Hok;
    (destruct retry as [|retry]; [lia|]); rewrite normal_retry_step.
  - replace (length (log m) + 2 * 0)%nat with (length (log m)) in Hok by lia.
    rewrite Hok. reflexivity.
  - pose proof (Hfail 0%nat ltac:(lia)) as H0.
    replace (length (log m) + 2 * 0)%nat with (length (log m)) in H0 by lia.
    rewrite H0. rewrite IH; cbn [log low_power_mode freq_set].
    + cbn [replicate concat]. rewrite <- !app_assoc. reflexivity.
    + lia.
    + intros j Hj. rewrite length_app.
      cbn [length normal_failed_round normal_round app].
      rewrite <- (Hfail (S j) ltac:(lia)). f_equal. lia.
    + rewrite length_app.
      cbn [length normal_failed_round normal_round app].
      rewrite <- Hok. f_equal. lia.
Qed.

Lemma normal_retry_exhausted (cpu : nat) :
  forall (retry : nat) (m : machine),
    (forall j, (j < retry)%nat ->
       max_ok sysfs (length (log m) + 2 * j) cpu NORMAL_MAX_FREQ = false) ->
    normal_retry sysfs cpu retry m =
      (tt, {| low_power_mode := low_power_mode m;
              freq_set := freq_set m;
              log := log m
                     ++ concat (replicate retry
                                  (normal_failed_round cpu)) |}).
Proof.
  induction retry as [|retry IH]; intros m Hfail.
  - cbn. rewrite app_nil_r. destruct m; reflexivity.
  - rewrite normal_retry_step.
    pose proof (Hfail 0%nat ltac:(lia)) as H0.
    replace (length (log m) + 2 * 0)%nat with (length (log m)) in H0 by lia.
    rewrite H0. rewrite IH; cbn [log low_power_mode freq_set].
    + cbn [replicate concat]. rewrite <- !app_assoc. reflexivity.
    + intros j Hj. rewrite length_app.
      cbn [length normal_failed_round normal_round app].
      rewrite <- (Hfail (S j) ltac:(lia)). f_equal. lia.
Qed.

Lemma reconcile_normal (cpu : nat) (m : machine) :
  low_power_mode m = false ->
  freq_set m !! cpu = Some true ->
  reconcile sysfs cpu m = (0, snd (normal_retry sysfs cpu 20 m)).
Proof.
  intros Hlpm Hfs.
  unfold reconcile, get_low_power_mode, get_freq_set, bind, ret.
  rewrite Hlpm, Hfs. cbn [default from_option id andb negb].
  change (Z.to_nat RETRY_TIME_CHANGING_FREQ) with 20%nat.
  destruct (normal_retry sysfs cpu 20 m). reflexivity.
Qed.

Lemma reconcile_noop (cpu : nat) (m : machine) :
  default false (freq_set m !! cpu) = low_power_mode m ->
  reconcile sysfs cpu m = (0, m).
Proof.
  intros H.
  unfold reconcile, get_low_power_mode, get_freq_set, bind, ret.
  rewrite H. destruct (low_power_mode m); reflexivity.
Qed.

(** Every call of the handler is a rejection, a message passed over, or
    the locked region run for one index in range. *)
Lemma uevent_event_cases (n : Z) (msg : string) (m : machine) :
  uevent_event sysfs noconv_einval n msg m = (-1, m) \/
  uevent_event sysfs noconv_einval n msg m = (0, m) \/
  exists cpu : nat, (cpu < Z.to_nat TOTAL_CPUS)%nat /\
    uevent_event sysfs noconv_einval n msg m = reconcile sysfs cpu m.
Proof.
  unfold uevent_event.
  destruct (n <=? 0); [left; reflexivity|].
  destruct (n >=? UEVENT_MSG_LEN); [left; reflexivity|].
  destruct (strstr (cstr msg) UEVENT_STRING); [|right; left; reflexivity].
  destruct (strtol noconv_einval _) as [v e].
  destruct (e =? EINVAL); [left; reflexivity|].
  destruct (e =? ERANGE); [left; reflexivity|].
  destruct (Z.ltb_spec v 0); [left; reflexivity|].
  destruct (Z.geb_spec v TOTAL_CPUS); [left; reflexivity|].
  right; right. exists (Z.to_nat v). split; [|reflexivity].
  unfold TOTAL_CPUS in *. lia.
Qed.

(** The locked region: nothing, the low-power loop, or the normal loop. *)
Lemma reconcile_cases (cpu : nat) (m : machine) :
  reconcile sysfs cpu m = (0, m) \/
  (low_power_mode m = true /\ default false (freq_set m !! cpu) = false /\
   reconcile sysfs cpu m = (0, snd (low_power_retry sysfs cpu 20 m))) \/
  (low_power_mode m = false /\ freq_set m !! cpu = Some true /\
   reconcile sysfs cpu m = (0, snd (normal_retry sysfs cpu 20 m))).
Proof.
  destruct (low_power_mode m) eqn:Hm,
    (default false (freq_set m !! cpu)) eqn:Hf.
  - left. apply reconcile_noop. congruence.
  - right; left. split; [reflexivity|]. split; [reflexivity|].
    unfold reconcile, get_low_power_mode, get_freq_set, bind, ret.
    rewrite Hm, Hf. cbn [andb negb].
    change (Z.to_nat RETRY_TIME_CHANGING_FREQ) with 20%nat.
    destruct (low_power_retry sysfs cpu 20 m). reflexivity.
  - right; right. split; [reflexivity|].
    assert (freq_set m !! cpu = Some true) as Hs.
    { destruct (freq_set m !! cpu) as [[|]|]; try discriminate Hf.
      reflexivity. }
    split; [exact Hs|]. apply reconcile_normal; assumption.
  - left. apply reconcile_noop. congruence.
Qed.

End Handler.

(** ** Further lemmas: what one handler call can change *)

Section Shape.

Variable sysfs : oracle.
Variable noconv_einval : bool.

Lemma length_concat_replicate {A : Type} (k : nat) (l : list A) :
  length (concat (replicate k l)) = (k * length l)%nat.
Proof.
  induction k as [|k IH]; [reflexivity|].
  cbn [replicate concat]. rewrite length_app, IH. lia.
Qed.

Lemma low_power_retry_shape (cpu retry : nat) (m : machine) :
  exists added : list event,
    let m' := snd (low_power_retry sysfs cpu retry m) in
    low_power_mode m' = low_power_mode m /\
    (freq_set m' = freq_set m \/ freq_set m' = <[cpu := true]> (freq_set m)) /\
    log m' = (log m ++ added)%list /\
    (length added <= 3 * retry)%nat.
Proof.
  destruct (first_true
              (fun j => max_ok sysfs (length (log m) + 3 * j + 1) cpu
                          LOW_POWER_MAX_FREQ) retry)
    as [Hnone | (k0 & Hk0 & Hok & Hmin)].
  - rewrite (low_power_retry_exhausted sysfs cpu retry m Hnone).
    eexists. cbn [snd low_power_mode freq_set log].
    split; [reflexivity|]. split; [left; reflexivity|].
    split; [reflexivity|]. rewrite length_concat_replicate.
    cbn [length low_power_failed_round low_power_round normal_failed_round
         normal_round app]. lia.
  - rewrite (low_power_retry_success sysfs cpu k0 retry m Hk0 Hmin Hok).
    eexists. cbn [snd low_power_mode freq_set log].
    split; [reflexivity|]. split; [right; reflexivity|].
    split; [reflexivity|].
    rewrite length_app, length_concat_replicate.
    cbn [length low_power_failed_round low_power_round normal_failed_round
         normal_round app]. lia.
Qed.

Lemma normal_retry_shape (cpu retry : nat) (m : machine) :
  exists added : list event,
    let m' := snd (normal_retry sysfs cpu retry m) in
    low_power_mode m' = low_power_mode m /\
    (freq_set m' = freq_set m \/ freq_set m' = <[cpu := false]> (freq_set m)) /\
    log m' = (log m ++ added)%list /\
    (length added <= 2 * retry)%nat.
Proof.
  destruct (first_true
              (fun j => max_ok sysfs (length (log m) + 2 * j) cpu
                          NORMAL_MAX_FREQ) retry)
    as [Hnone | (k0 & Hk0 & Hok & Hmin)].
  - rewrite (normal_retry_exhausted sysfs cpu retry m Hnone).
    eexists. cbn [snd low_power_mode freq_set log].
    split; [reflexivity|]. split; [left; reflexivity|].
    split; [reflexivity|]. rewrite length_concat_replicate.
    cbn [length low_power_failed_round low_power_round normal_failed_round
         normal_round app]. lia.
  - rewrite (normal_retry_success sysfs cpu k0 retry m Hk0 Hmin Hok).
    eexists. cbn [snd low_power_mode freq_set log].
    split; [reflexivity|]. split; [right; reflexivity|].
    split; [reflexivity|].
    rewrite length_app, length_concat_replicate.
    cbn [length low_power_failed_round low_power_round normal_failed_round
         normal_round app]. lia.
Qed.

Lemma reconcile_shape (cpu : nat) (m : machine) :
  exists added : list event,
    let m' := snd (reconcile sysfs cpu m) in
    low_power_mode m' = low_power_mode m /\
    (freq_set m' = freq_set m \/
     freq_set m' = <[cpu := low_power_mode m]> (freq_set m)) /\
    log m' = (log m ++ added)%list /\
    (length added <= 60)%nat.
Proof.
  destruct (reconcile_cases sysfs cpu m)
    as [-> | [(Hm & _ & ->) | (Hm & _ & ->)]]; cbn [snd].
  - exists []. cbn. rewrite app_nil_r. repeat split; [left; reflexivity | lia].
  - destruct (low_power_retry_shape cpu 20 m) as (added & H1 & H2 & H3 & H4).
    exists added. cbn zeta in *. rewrite Hm.
    split; [congruence|]. split; [exact H2|]. split; [exact H3 | lia].
  - destruct (normal_retry_shape cpu 20 m) as (added & H1 & H2 & H3 & H4).
    exists added. cbn zeta in *. rewrite Hm.
    split; [congruence|]. split; [exact H2|]. split; [exact H3 | lia].
Qed.

Lemma uevent_event_shape (n : Z) (msg : string) (m : machine) :
  exists (cpu : nat) (added : list event),
    let m' := snd (uevent_event sysfs noconv_einval n msg m) in
    (cpu < Z.to_nat TOTAL_CPUS)%nat /\
    low_power_mode m' = low_power_mode m /\
    (freq_set m' = freq_set m \/
     freq_set m' = <[cpu := low_power_mode m]> (freq_set m)) /\
    log m' = (log m ++ added)%list /\
    (length added <= 60)%nat.
Proof.
  destruct (uevent_event_cases sysfs noconv_einval n msg m)
    as [-> | [-> | (cpu & Hcpu & ->)]].
  - exists 0%nat, []. cbn [snd length]. rewrite app_nil_r.
    split; [unfold TOTAL_CPUS; lia|]. split; [reflexivity|].
    split; [left; reflexivity|]. split; [reflexivity | lia].
  - exists 0%nat, []. cbn [snd length]. rewrite app_nil_r.
    split; [unfold TOTAL_CPUS; lia|]. split; [reflexivity|].
    split; [left; reflexivity|]. split; [reflexivity | lia].
  - destruct (reconcile_shape cpu m) as (added & H). exists cpu, added.
    cbn zeta in *. split; [exact Hcpu | exact H].
Qed.

End Shape.

(** ** Further lemmas: the flags against what the endpoints hold *)

Section Sound.

Variable sysfs : oracle.
Variable noconv_einval : bool.

Lemma preserves_ret {A : Type} (P : machine -> Prop) (a : A) :
  preserves P (ret a).
Proof. intros m H. exact H. Qed.

Lemma preserves_bind {A B : Type} (P : machine -> Prop)
  (c : M A) (k : A -> M B) :
  preserves P c -> (forall a, preserves P (k a)) -> preserves P (bind c k).
Proof.
  intros Hc Hk m H. unfold bind. specialize (Hc m H).
  destruct (c m) as [a m1]. apply Hk. exact Hc.
Qed.

Lemma preserves_for_each_cpu (P : machine -> Prop) (body : nat -> M unit) :
  (forall cpu, (cpu < Z.to_nat TOTAL_CPUS)%nat -> preserves P (body cpu)) ->
  preserves P (for_each_cpu body).
Proof.
  intros Hb. unfold for_each_cpu. rewrite cpus_eq. cbn [foldr].
  change (Z.to_nat TOTAL_CPUS) with 4%nat in Hb.
  repeat (apply preserves_bind; [apply Hb; lia | intros _]).
  apply preserves_ret.
Qed.

Lemma last_written_app (path : string) (l1 l2 : list event) :
  forall (t : nat) (acc : option string),
    last_written sysfs path t (l1 ++ l2) acc =
    last_written sysfs path (t + length l1) l2
      (last_written sysfs path t l1 acc).
Proof.
  induction l1 as [|e l1 IH]; intros t acc.
  - cbn. rewrite Nat.add_0_r. reflexivity.
  - destruct e; cbn [app last_written length]; rewrite IH;
      f_equal; lia.
Qed.

(** What an endpoint holds after one more write. *)
Lemma endpoint_value_write (m : machine) (b : bool) (fs : list bool)
  (p s path : string) :
  endpoint_value sysfs
    {| low_power_mode := b; freq_set := fs; log := log m ++ [Write p s] |}
    path =
  if String.eqb p path && ok (sysfs (length (log m)) p s)
  then Some s else endpoint_value sysfs m path.
Proof.
  unfold endpoint_value. cbn [log]. rewrite last_written_app. reflexivity.
Qed.

Lemma is_max_path_false (p : string) (cpu : nat) :
  is_max_path p = false ->
  (cpu < Z.to_nat TOTAL_CPUS)%nat ->
  String.eqb p (path_max cpu) = false.
Proof.
  intros H Hcpu. change (Z.to_nat TOTAL_CPUS) with 4%nat in Hcpu.
  unfold is_max_path, cpu_path_max in H. cbn [existsb] in H.
  repeat (apply orb_false_elim in H; destruct H as [? H]).
  destruct cpu as [|[|[|[|cpu]]]]; [assumption ..|lia].
Qed.

Lemma path_max_eqb (cpu cpu' : nat) :
  (cpu < Z.to_nat TOTAL_CPUS)%nat ->
  (cpu' < Z.to_nat TOTAL_CPUS)%nat ->
  cpu <> cpu' ->
  String.eqb (path_max cpu) (path_max cpu') = false.
Proof.
  intros H H' Hne. change (Z.to_nat TOTAL_CPUS) with 4%nat in *.
  destruct cpu as [|[|[|[|cpu]]]]; try lia;
    destruct cpu' as [|[|[|[|cpu']]]]; try lia; try congruence;
    reflexivity.
Qed.

Lemma path_min_not_max (cpu : nat) : is_max_path (path_min cpu) = false.
Proof.
  destruct cpu as [|[|[|[|cpu]]]]; try reflexivity.
  destruct cpu; reflexivity.
Qed.

Lemma applied_sound_init : applied_sound sysfs machine_init.
Proof.
  split; [reflexivity|]. intros cpu Hcpu.
  change (Z.to_nat TOTAL_CPUS) with 4%nat in Hcpu.
  unfold endpoint_value. cbn [log machine_init last_written].
  split; [|discriminate].
  destruct cpu as [|[|[|[|cpu]]]]; try lia; discriminate.
Qed.

(** A write to anything but a per-CPU maximum-frequency endpoint, a sleep
    and the mode assignment keep the flags sound. *)
Lemma sound_write_other (p s : string) :
  is_max_path p = false ->
  preserves (applied_sound sysfs) (sysfs_write sysfs p s).
Proof.
  intros Hp m [Hlen Hs]. rewrite sysfs_write_run. cbn [snd].
  split; [exact Hlen|]. intros cpu Hcpu. cbn [freq_set].
  rewrite endpoint_value_write, (is_max_path_false p cpu Hp Hcpu).
  cbn [andb]. apply Hs. exact Hcpu.
Qed.

Lemma sound_usleep (usec : Z) :
  preserves (applied_sound sysfs) (usleep usec).
Proof.
  intros m [Hlen Hs]. unfold usleep, emit. cbn [snd].
  split; [exact Hlen|]. intros cpu Hcpu. cbn [freq_set].
  unfold endpoint_value. cbn [log]. rewrite last_written_app.
  cbn [last_written]. apply Hs. exact Hcpu.
Qed.

Lemma sound_set_low_power_mode (b : bool) :
  preserves (applied_sound sysfs) (set_low_power_mode b).
Proof. intros m H. exact H. Qed.

(** One attempt on the maximum-frequency endpoint of [cpu]: on success the
    flag is assigned, which is in step with the endpoint when the value
    written and the flag correspond. *)
Lemma sound_attempt (cpu : nat) (s : string) (b : bool) (k : M unit) :
  (cpu < Z.to_nat TOTAL_CPUS)%nat ->
  (b = true <-> s = LOW_POWER_MAX_FREQ) ->
  preserves (applied_sound sysfs) k ->
  preserves (applied_sound sysfs)
    (r <- sysfs_write sysfs (path_max cpu) s ;;
     if r =? 0 then set_freq_set cpu b else k).
Proof.
  intros Hcpu Hb Hk m [Hlen Hs]. unfold bind. rewrite sysfs_write_run.
  destruct (ok (sysfs (length (log m)) (path_max cpu) s)) eqn:Hok;
    cbn [Z.eqb].
  - unfold set_freq_set. cbn [snd low_power_mode freq_set log].
    split; [cbn [freq_set]; rewrite length_insert; exact Hlen|].
    intros cpu' Hcpu'. cbn [freq_set].
    rewrite endpoint_value_write, Hok, andb_true_r.
    destruct (Nat.eq_dec cpu cpu') as [<-|Hne].
    + rewrite String.eqb_refl, list_lookup_insert_eq by lia.
      split; intros [= H]; f_equal; apply Hb; exact H.
    + rewrite (path_max_eqb cpu cpu' Hcpu Hcpu' Hne).
      rewrite list_lookup_insert_ne by exact Hne.
      apply Hs. exact Hcpu'.
  - apply Hk. split; [exact Hlen|]. intros cpu' Hcpu'. cbn [freq_set].
    rewrite endpoint_value_write, Hok, andb_false_r.
    apply Hs. exact Hcpu'.
Qed.

Lemma low_power_flag : true = true <-> LOW_POWER_MAX_FREQ = LOW_POWER_MAX_FREQ.
Proof. split; reflexivity. Qed.

Lemma normal_flag : false = true <-> NORMAL_MAX_FREQ = LOW_POWER_MAX_FREQ.
Proof. split; discriminate. Qed.

Lemma sound_low_power_body (cpu : nat) :
  (cpu < Z.to_nat TOTAL_CPUS)%nat ->
  preserves (applied_sound sysfs) (low_power_body sysfs cpu).
Proof.
  intros Hcpu. unfold low_power_body. apply preserves_bind.
  - apply sound_write_other, path_min_not_max.
  - intros _. apply sound_attempt;
      [exact Hcpu | exact low_power_flag | apply preserves_ret].
Qed.

Lemma sound_normal_body (cpu : nat) :
  (cpu < Z.to_nat TOTAL_CPUS)%nat ->
  preserves (applied_sound sysfs) (normal_body sysfs cpu).
Proof.
  intros Hcpu. unfold normal_body.
  apply sound_attempt; [exact Hcpu | exact normal_flag | apply preserves_ret].
Qed.

Lemma sound_low_power_retry (cpu : nat) :
  (cpu < Z.to_nat TOTAL_CPUS)%nat ->
  forall retry : nat,
    preserves (applied_sound sysfs) (low_power_retry sysfs cpu retry).
Proof.
  intros Hcpu. induction retry as [|retry IH]; [apply preserves_ret|].
  cbn [low_power_retry]. apply preserves_bind.
  - apply sound_write_other, path_min_not_max.
  - intros _. apply sound_attempt; [exact Hcpu | exact low_power_flag |].
    apply preserves_bind; [apply sound_usleep | intros _; exact IH].
Qed.

Lemma sound_normal_retry (cpu : nat) :
  (cpu < Z.to_nat TOTAL_CPUS)%nat ->
  forall retry : nat,
    preserves (applied_sound sysfs) (normal_retry sysfs cpu retry).
Proof.
  intros Hcpu. induction retry as [|retry IH]; [apply preserves_ret|].
  cbn [normal_retry].
  apply sound_attempt; [exact Hcpu | exact normal_flag |].
  apply preserves_bind; [apply sound_usleep | intros _; exact IH].
Qed.

Lemma sound_grouper_power_hint (hint data : Z) :
  preserves (applied_sound sysfs) (grouper_power_hint sysfs hint data).
Proof.
  unfold grouper_power_hint.
  destruct (hint =? POWER_HINT_INTERACTION).
  { apply preserves_bind; [apply sound_write_other; reflexivity|].
    intros _. apply preserves_ret. }
  destruct (hint =? POWER_HINT_LOW_POWER); [|apply preserves_ret].
  destruct (negb (data =? 0));
    (apply preserves_bind; [apply sound_write_other; reflexivity|]);
    intros _;
    (apply preserves_bind; [apply sound_set_low_power_mode|]);
    intros _; apply preserves_for_each_cpu.
  - apply sound_low_power_body.
  - apply sound_normal_body.
Qed.

Lemma sound_grouper_power_set_interactive (on : Z) :
  preserves (applied_sound sysfs) (grouper_power_set_interactive sysfs on).
Proof.
  unfold grouper_power_set_interactive.
  destruct (negb (on =? 0));
    repeat (apply preserves_bind;
            [apply sound_write_other; reflexivity | intros _]);
    apply preserves_ret.
Qed.

Lemma sound_uevent_event (n : Z) (msg : string) :
  preserves (applied_sound sysfs) (uevent_event sysfs noconv_einval n msg).
Proof.
  intros m H.
  destruct (uevent_event_cases sysfs noconv_einval n msg m)
    as [-> | [-> | (cpu & Hcpu & ->)]]; [exact H | exact H |].
  destruct (reconcile_cases sysfs cpu m)
    as [-> | [(_ & _ & ->) | (_ & _ & ->)]]; cbn [snd].
  - exact H.
  - apply (sound_low_power_retry cpu Hcpu 20 m H).
  - apply (sound_normal_retry cpu Hcpu 20 m H).
Qed.

End Sound.

(** ** Further lemmas: mode changes, the listener loop, whole runs *)

Section Runs.

Variable sysfs : oracle.
Variable noconv_einval : bool.

Lemma after_low_power_lookup (m : machine) (cpu : nat) :
  length (freq_set m) = Z.to_nat TOTAL_CPUS ->
  (cpu < Z.to_nat TOTAL_CPUS)%nat ->
  freq_set (after_low_power sysfs m) !! cpu =
    if max_ok sysfs (length (log m) + 2 * cpu + 2) cpu LOW_POWER_MAX_FREQ
    then Some true else freq_set m !! cpu.
Proof.
  intros Hlen Hcpu. change (Z.to_nat TOTAL_CPUS) with 4%nat in *.
  cbn [after_low_power freq_set]. rewrite cpus_eq. cbn [foldl].
  destruct (freq_set m) as [|a [|b [|c [|d [|e fs]]]]];
    try discriminate Hlen.
  destruct cpu as [|[|[|[|cpu]]]]; try lia;
    repeat match goal with
           | |- context [max_ok ?o ?t ?c ?s] => destruct (max_ok o t c s)
           end; reflexivity.
Qed.

Lemma after_normal_lookup (m : machine) (cpu : nat) :
  length (freq_set m) = Z.to_nat TOTAL_CPUS ->
  (cpu < Z.to_nat TOTAL_CPUS)%nat ->
  freq_set (after_normal sysfs m) !! cpu =
    if max_ok sysfs (length (log m) + cpu + 1) cpu NORMAL_MAX_FREQ
    then Some false else freq_set m !! cpu.
Proof.
  intros Hlen Hcpu. change (Z.to_nat TOTAL_CPUS) with 4%nat in *.
  cbn [after_normal freq_set]. rewrite cpus_eq. cbn [foldl].
  destruct (freq_set m) as [|a [|b [|c [|d [|e fs]]]]];
    try discriminate Hlen.
  destruct cpu as [|[|[|[|cpu]]]]; try lia;
    repeat match goal with
           | |- context [max_ok ?o ?t ?c ?s] => destruct (max_ok o t c s)
           end; reflexivity.
Qed.

(** The LOW_POWER hint in one equation. *)
Lemma hint_low_power_mode_run (data : Z) (m : machine) :
  snd (grouper_power_hint sysfs POWER_HINT_LOW_POWER data m) =
    if data =? 0 then after_normal sysfs m else after_low_power sysfs m.
Proof.
  destruct (Z.eqb_spec data 0) as [->|Hd].
  - rewrite hint_normal_run. reflexivity.
  - rewrite (hint_low_power_run sysfs data m Hd). reflexivity.
Qed.

Lemma hint_interaction_run (data : Z) (m : machine) :
  grouper_power_hint sysfs POWER_HINT_INTERACTION data m =
    (tt, {| low_power_mode := low_power_mode m;
            freq_set := freq_set m;
            log := log m ++ [Write CPUFREQ_BOOSTPULSE "1"] |}).
Proof.
  unfold grouper_power_hint. rewrite Z.eqb_refl.
  unfold bind. rewrite sysfs_write_run. reflexivity.
Qed.

Lemma set_interactive_run (on : Z) (m : machine) :
  exists added : list event,
    grouper_power_set_interactive sysfs on m =
      (tt, {| low_power_mode := low_power_mode m;
              freq_set := freq_set m;
              log := log m ++ added |}) /\
    length added = 5%nat /\
    head added = Some (Write CPUQUIET_CORE_LOCKER
                         (if on =? 0 then "0" else "1")) /\
    Forall (fun e => match e with
                     | Write p _ => is_freq_path p = false
                     | Usleep _ => False
                     end) added.
Proof.
  unfold grouper_power_set_interactive.
  destruct (on =? 0); cbn [negb]; unfold bind, ret;
    rewrite !sysfs_write_run; cbn [log low_power_mode freq_set];
    rewrite <- !app_assoc; cbn [app];
    (eexists; split; [reflexivity|]);
    (split; [reflexivity|]); (split; [reflexivity|]);
    repeat constructor.
Qed.


(** The listener loop is the handler folded over the delivered
    messages. *)
Lemma thread_uevent_run :
  forall (ws : list wakeup) (m : machine),
    thread_uevent sysfs noconv_einval ws m =
      (fatal ws, foldl (handle sysfs noconv_einval) m (delivered ws)).
Proof.
  induction ws as [|[errno | n msg] ws IH]; intros m.
  - reflexivity.
  - cbn [thread_uevent delivered fatal existsb].
    destruct (errno =? EINTR); cbn [negb orb]; [apply IH | reflexivity].
  - cbn [thread_uevent delivered fatal existsb foldl orb]. unfold bind.
    unfold handle at 2. cbn [fst snd].
    destruct (uevent_event sysfs noconv_einval n msg m) as [r m1].
    apply IH.
Qed.


Lemma run_call_mode (m : machine) (c : call) :
  low_power_mode (run_call sysfs noconv_einval m c) =
    requested_mode (low_power_mode m) [c].
Proof.
  destruct c as [hint data | on | n msg]; cbn [run_call requested_mode foldl].
  - destruct (Z.eqb_spec hint POWER_HINT_LOW_POWER) as [->|Hl].
    + rewrite hint_low_power_mode_run. destruct (data =? 0); reflexivity.
    + destruct (Z.eqb_spec hint POWER_HINT_INTERACTION) as [->|Hi].
      * rewrite hint_interaction_run. reflexivity.
      * unfold grouper_power_hint.
        destruct (Z.eqb_spec hint POWER_HINT_INTERACTION); [contradiction|].
        destruct (Z.eqb_spec hint POWER_HINT_LOW_POWER); [contradiction|].
        reflexivity.
  - destruct (set_interactive_run on m) as (added & -> & _). reflexivity.
  - destruct (uevent_event_shape sysfs noconv_einval n msg m)
      as (cpu & added & _ & H & _). exact H.
Qed.

Lemma run_call_sound (m : machine) (c : call) :
  applied_sound sysfs m ->
  applied_sound sysfs (run_call sysfs noconv_einval m c).
Proof.
  destruct c as [hint data | on | n msg]; cbn [run_call].
  - apply sound_grouper_power_hint.
  - apply sound_grouper_power_set_interactive.
  - apply sound_uevent_event.
Qed.

(** With every maximum-bound write succeeding, a call keeps the flags in
    agreement with the mode. *)
Lemma run_call_consistent (m : machine) (c : call) :
  (forall (t cpu : nat) (s : string),
     (cpu < Z.to_nat TOTAL_CPUS)%nat -> max_ok sysfs t cpu s = true) ->
  length (freq_set m) = Z.to_nat TOTAL_CPUS ->
  consistent m ->
  length (freq_set (run_call sysfs noconv_einval m c)) = Z.to_nat TOTAL_CPUS
  /\ consistent (run_call sysfs noconv_einval m c).
Proof.
  intros Hok Hlen Hc.
  destruct c as [hint data | on | n msg]; cbn [run_call].
  - destruct (Z.eqb_spec hint POWER_HINT_LOW_POWER) as [->|Hl].
    + rewrite hint_low_power_mode_run.
      destruct (data =? 0).
      * assert (consistent (after_normal sysfs m)) as Hc'.
        { intros cpu Hcpu. rewrite after_normal_lookup, Hok by assumption.
          reflexivity. }
        split; [|exact Hc'].
        cbn [after_normal freq_set]. rewrite cpus_eq. cbn [foldl].
        rewrite !Hok by (vm_compute; lia). rewrite !length_insert.
        exact Hlen.
      * assert (consistent (after_low_power sysfs m)) as Hc'.
        { intros cpu Hcpu. rewrite after_low_power_lookup, Hok by assumption.
          reflexivity. }
        split; [|exact Hc'].
        cbn [after_low_power freq_set]. rewrite cpus_eq. cbn [foldl].
        rewrite !Hok by (vm_compute; lia). rewrite !length_insert.
        exact Hlen.
    + destruct (Z.eqb_spec hint POWER_HINT_INTERACTION) as [->|Hi].
      * rewrite hint_interaction_run. split; assumption.
      * unfold grouper_power_hint.
        destruct (Z.eqb_spec hint POWER_HINT_INTERACTION); [contradiction|].
        destruct (Z.eqb_spec hint POWER_HINT_LOW_POWER); [contradiction|].
        split; assumption.
  - destruct (set_interactive_run on m) as (added & -> & _).
    split; assumption.
  - destruct (uevent_event_cases sysfs noconv_einval n msg m)
      as [-> | [-> | (cpu & Hcpu & ->)]]; [split; assumption ..|].
    rewrite reconcile_noop; [split; assumption|].
    rewrite (Hc cpu Hcpu). reflexivity.
Qed.

End Runs.

(** ** Further properties of power.c *)

(** X1. An online event for a valid CPU index, received in normal mode
    while that CPU's flag is still set, runs at most 20 rounds, each one
    write of the normal maximum frequency: the first round [k] whose write
    succeeds clears the flag and ends the loop, after [k] failed rounds
    each followed by a 200 us sleep; when all 20 writes fail the flag
    stays set.  The minimum-frequency endpoint is never written on this
    path; the handler returns 0 and the mode is untouched. *)
Theorem uevent_event_normal_retry
  (sysfs : oracle) (noconv_einval : bool) (n : Z) (msg : string)
  (cpu : nat) (m : machine) :
  online_event n msg cpu ->
  low_power_mode m = false ->
  freq_set m !! cpu = Some true ->
  let t := length (log m) in
  let r := fst (uevent_event sysfs noconv_einval n msg m) in
  let m' := snd (uevent_event sysfs noconv_einval n msg m) in
  r = 0 /\
  low_power_mode m' = false /\
  (forall k : nat,
     (k < 20)%nat ->
     (forall j : nat, (j < k)%nat ->
        max_ok sysfs (t + 2 * j) cpu NORMAL_MAX_FREQ = false) ->
     max_ok sysfs (t + 2 * k) cpu NORMAL_MAX_FREQ = true ->
     freq_set m' = <[cpu := false]> (freq_set m) /\
     freq_set m' !! cpu = Some false /\
     log m' = (log m ++ concat (replicate k (normal_failed_round cpu))
                     ++ normal_round cpu)%list) /\
  ((forall j : nat, (j < 20)%nat ->
      max_ok sysfs (t + 2 * j) cpu NORMAL_MAX_FREQ = false) ->
   freq_set m' = freq_set m /\
   freq_set m' !! cpu = Some true /\
   log m' = (log m ++ concat (replicate 20 (normal_failed_round cpu)))%list).
Proof.
  intros Hev Hlpm Hfs t r m'. subst r m'.
  rewrite (uevent_event_online _ _ _ _ _ _ Hev).
  rewrite (reconcile_normal _ _ _ Hlpm Hfs).
  destruct (first_true (fun j => max_ok sysfs (t + 2 * j) cpu
                                   NORMAL_MAX_FREQ) 20)
    as [Hnone | (k0 & Hk0 & Hok & Hmin)].
  - rewrite (normal_retry_exhausted sysfs cpu 20 m Hnone).
    cbn [fst snd log low_power_mode freq_set].
    split; [reflexivity|]. split; [assumption|]. split.
    + intros k Hk _ Hok. rewrite (Hnone k Hk) in Hok. discriminate.
    + intros _. auto.
  - rewrite (normal_retry_success sysfs cpu k0 20 m Hk0 Hmin Hok).
    cbn [fst snd log low_power_mode freq_set].
    split; [reflexivity|]. split; [assumption|]. split.
    + intros k Hk Hfail Hokk.
      assert (k = k0) as ->.
      { destruct (Nat.lt_trichotomy k k0) as [Hlt|[Heq|Hgt]]; [|exact Heq|].
        - rewrite (Hmin k Hlt) in Hokk. discriminate.
        - rewrite (Hfail k0 Hgt) in Hok. discriminate. }
      split; [reflexivity|]. split; [|reflexivity].
      apply list_lookup_insert_eq. apply lookup_lt_Some in Hfs. exact Hfs.
    + intros Hnone. rewrite (Hnone k0 Hk0) in Hok. discriminate.
Qed.

Lemma uevent_event_normal_retry_witness :
  let msg := uevent_msg "online@/devices/system/cpu/cpu2" in
  let m' := snd (uevent_event (fails_until 3) false (recv_len msg) msg
                   normal_cpu2_capped) in
  freq_set m' = [false; false; false; false] /\
  log m' = (concat (replicate 2 (normal_failed_round 2))
            ++ normal_round 2)%list.
Proof.
  intros msg m'.
  destruct (uevent_event_normal_retry (fails_until 3) false
              (recv_len msg) msg 2%nat normal_cpu2_capped)
    as (_ & _ & Hsucc & _).
  - solve_online_event.
  - reflexivity.
  - reflexivity.
  - destruct (Hsucc 2%nat) as (Hfs & _ & Hlog).
    + lia.
    + intros j Hj. destruct j as [|[|j]]; [reflexivity | reflexivity | lia].
    + reflexivity.
    + split; [exact Hfs | exact Hlog].
Defined.

(** X2. The handler returns 0 or -1, and a return of -1 means that nothing
    happened: no flag and no mode changed, no outside call made. *)
Theorem uevent_event_error_no_effect
  (sysfs : oracle) (noconv_einval : bool) (n : Z) (msg : string)
  (m : machine) :
  let r := uevent_event sysfs noconv_einval n msg m in
  (fst r = 0 \/ fst r = -1) /\ (fst r = -1 -> snd r = m).
Proof.
  cbn zeta.
  destruct (uevent_event_cases sysfs noconv_einval n msg m)
    as [-> | [-> | (cpu & _ & ->)]]; cbn [fst snd].
  - split; [right; reflexivity | reflexivity].
  - split; [left; reflexivity | reflexivity].
  - destruct (reconcile_cases sysfs cpu m)
      as [-> | [(_ & _ & ->) | (_ & _ & ->)]]; cbn [fst snd];
      (split; [left; reflexivity | discriminate]).
Qed.

Lemma uevent_event_error_no_effect_witness :
  let msg := uevent_msg "online@/devices/system/cpu/cpu7" in
  snd (uevent_event (always Written) false (recv_len msg) msg
         low_power_unapplied) = low_power_unapplied.
Proof.
  intros msg.
  apply (uevent_event_error_no_effect (always Written) false (recv_len msg)
           msg low_power_unapplied).
  reflexivity.
Defined.

(** X3. Of a message that carries the signature and has an accepted
    length, the handler looks at nothing but the last character of its
    first string: two such messages that end in the same character are
    handled alike. *)
Theorem uevent_event_last_character
  (sysfs : oracle) (noconv_einval : bool) (n1 n2 : Z) (msg1 msg2 : string)
  (m : machine) :
  0 < n1 < UEVENT_MSG_LEN ->
  0 < n2 < UEVENT_MSG_LEN ->
  strstr (cstr msg1) UEVENT_STRING <> None ->
  strstr (cstr msg2) UEVENT_STRING <> None ->
  last_char (cstr msg1) = last_char (cstr msg2) ->
  uevent_event sysfs noconv_einval n1 msg1 m =
  uevent_event sysfs noconv_einval n2 msg2 m.
Proof.
  intros [H1 H1'] [H2 H2'] Hs1 Hs2 Hlast. unfold uevent_event.
  destruct (Z.leb_spec n1 0) as [|_]; [lia|].
  destruct (Z.leb_spec n2 0) as [|_]; [lia|].
  destruct (Z.geb_spec n1 UEVENT_MSG_LEN) as [|_]; [lia|].
  destruct (Z.geb_spec n2 UEVENT_MSG_LEN) as [|_]; [lia|].
  destruct (strstr (cstr msg1) UEVENT_STRING) as [p1|] eqn:E1;
    [|congruence].
  destruct (strstr (cstr msg2) UEVENT_STRING) as [p2|] eqn:E2;
    [|congruence].
  assert (exists c, last_char (cstr msg1) = Some c) as [c Hc].
  { destruct (cstr msg1) as [|a s]; [discriminate E1|].
    clear. revert a. induction s as [|b s IH]; intros a.
    - exists a. reflexivity.
    - destruct (IH b) as [c Hc]. exists c. exact Hc. }
  assert (last_char (cstr msg2) = Some c) as Hc' by congruence.
  unfold strlen.
  replace (Z.to_nat (Z.of_nat (String.length (cstr msg1)) - 1))
    with (String.length (cstr msg1) - 1)%nat by lia.
  replace (Z.to_nat (Z.of_nat (String.length (cstr msg2)) - 1))
    with (String.length (cstr msg2) - 1)%nat by lia.
  rewrite (offset_last _ _ Hc), (offset_last _ _ Hc'). reflexivity.
Qed.

Lemma uevent_event_last_character_witness :
  let msg1 := uevent_msg "online@/devices/system/cpu/cpu3" in
  let msg2 := uevent_msg "remove@/x/online@/devices/system/cpu/cpu1023" in
  uevent_event (always Written) false (recv_len msg1) msg1
    low_power_unapplied =
  uevent_event (always Written) false (recv_len msg2) msg2
    low_power_unapplied.
Proof.
  intros msg1 msg2.
  apply (uevent_event_last_character (always Written) false
           (recv_len msg1) (recv_len msg2) msg1 msg2 low_power_unapplied).
  - split; vm_compute; reflexivity.
  - split; vm_compute; reflexivity.
  - vm_compute. discriminate.
  - vm_compute. discriminate.
  - vm_compute. reflexivity.
Defined.

(** X4. A message with the signature whose last character is a digit from
    4 to 9 is rejected by the range check: the handler returns -1 and
    nothing happened. *)
Theorem uevent_event_digit_out_of_range
  (sysfs : oracle) (noconv_einval : bool) (n : Z) (msg : string)
  (d : nat) (m : machine) :
  0 < n < UEVENT_MSG_LEN ->
  strstr (cstr msg) UEVENT_STRING <> None ->
  last_char (cstr msg) = Some (digit_char d) ->
  (4 <= d <= 9)%nat ->
  uevent_event sysfs noconv_einval n msg m = (-1, m).
Proof.
  intros [Hn Hn'] Hs Hlast Hd. unfold uevent_event.
  destruct (Z.leb_spec n 0) as [|_]; [lia|].
  destruct (Z.geb_spec n UEVENT_MSG_LEN) as [|_]; [lia|].
  destruct (strstr (cstr msg) UEVENT_STRING) as [p|]; [|congruence].
  unfold strlen.
  replace (Z.to_nat (Z.of_nat (String.length (cstr msg)) - 1))
    with (String.length (cstr msg) - 1)%nat by lia.
  rewrite (offset_last _ _ Hlast).
  assert (d = 4 \/ d = 5 \/ d = 6 \/ d = 7 \/ d = 8 \/ d = 9)%nat
    as [->|[->|[->|[->|[->| ->]]]]] by lia; reflexivity.
Qed.

Lemma uevent_event_digit_out_of_range_witness :
  let msg := uevent_msg "online@/devices/system/cpu/cpu4" in
  uevent_event (always Written) false (recv_len msg) msg low_power_unapplied
  = (-1, low_power_unapplied).
Proof.
  intros msg. apply (uevent_event_digit_out_of_range _ _ _ _ 4%nat).
  - split; reflexivity.
  - vm_compute. discriminate.
  - reflexivity.
  - lia.
Defined.

(** X5. Whatever it receives and however the writes turn out, one call of
    the handler leaves the mode and the number of flags alone and changes
    at most one flag, that of an index below [TOTAL_CPUS]; a flag that
    changed now equals the mode. *)
Theorem uevent_event_frame
  (sysfs : oracle) (noconv_einval : bool) (n : Z) (msg : string)
  (m : machine) :
  let m' := snd (uevent_event sysfs noconv_einval n msg m) in
  low_power_mode m' = low_power_mode m /\
  length (freq_set m') = length (freq_set m) /\
  (exists cpu : nat, (cpu < Z.to_nat TOTAL_CPUS)%nat /\
     forall i : nat, i <> cpu -> freq_set m' !! i = freq_set m !! i) /\
  (forall i : nat,
     freq_set m' !! i = freq_set m !! i \/
     freq_set m' !! i = Some (low_power_mode m)).
Proof.
  destruct (uevent_event_shape sysfs noconv_einval n msg m)
    as (cpu & added & Hcpu & Hmode & Hfs & _). cbn zeta in *.
  split; [exact Hmode|].
  destruct Hfs as [-> | ->].
  - split; [reflexivity|]. split; [|left; reflexivity].
    exists cpu. split; [exact Hcpu | reflexivity].
  - split; [apply length_insert|]. split.
    + exists cpu. split; [exact Hcpu|].
      intros i Hi. apply list_lookup_insert_ne. congruence.
    + intros i. destruct (Nat.eq_dec cpu i) as [<-|Hne].
      * destruct (Nat.lt_ge_cases cpu (length (freq_set m))) as [Hlt|Hge].
        -- right. apply list_lookup_insert_eq. exact Hlt.
        -- left. rewrite list_insert_ge by exact Hge. reflexivity.
      * left. apply list_lookup_insert_ne. exact Hne.
Qed.

(** X6. One call of the handler only appends to the record of outside
    calls, and at most 60 of them (20 rounds of two writes and a sleep):
    the time it holds the lock is bounded. *)
Theorem uevent_event_cost
  (sysfs : oracle) (noconv_einval : bool) (n : Z) (msg : string)
  (m : machine) :
  exists added : list event,
    log (snd (uevent_event sysfs noconv_einval n msg m))
    = (log m ++ added)%list /\
    (length added <= 60)%nat.
Proof.
  destruct (uevent_event_shape sysfs noconv_einval n msg m)
    as (cpu & added & _ & _ & _ & Hlog & Hlen).
  exists added. split; [exact Hlog | exact Hlen].
Qed.

(** X7. After a POWER_HINT_LOW_POWER call the flag of each CPU is the
    requested mode when the write to its maximum-frequency endpoint
    succeeded and is what it was before otherwise; the outcomes of the
    minimum-frequency writes and of the core-lock write play no part. *)
Theorem power_hint_flag
  (sysfs : oracle) (data : Z) (m : machine) (cpu : nat) :
  length (freq_set m) = Z.to_nat TOTAL_CPUS ->
  (cpu < Z.to_nat TOTAL_CPUS)%nat ->
  let t := length (log m) in
  freq_set (snd (grouper_power_hint sysfs POWER_HINT_LOW_POWER data m))
    !! cpu =
  if data =? 0
  then (if max_ok sysfs (t + cpu + 1) cpu NORMAL_MAX_FREQ
        then Some false else freq_set m !! cpu)
  else (if max_ok sysfs (t + 2 * cpu + 2) cpu LOW_POWER_MAX_FREQ
        then Some true else freq_set m !! cpu).
Proof.
  intros Hlen Hcpu t. rewrite hint_low_power_mode_run.
  destruct (data =? 0).
  - apply after_normal_lookup; assumption.
  - apply after_low_power_lookup; assumption.
Qed.

Lemma power_hint_flag_witness :
  let m := snd (grouper_power_hint (cpu1_offline_until 9)
                  POWER_HINT_LOW_POWER 1 machine_init) in
  freq_set m !! 1%nat = Some false /\ freq_set m !! 2%nat = Some true.
Proof.
  intros m. split.
  - apply (power_hint_flag (cpu1_offline_until 9) 1 machine_init 1);
      [reflexivity | vm_compute; lia].
  - apply (power_hint_flag (cpu1_offline_until 9) 1 machine_init 2);
      [reflexivity | vm_compute; lia].
Defined.

(** X8. When the four maximum-frequency writes of a POWER_HINT_LOW_POWER
    call succeed, every flag agrees with the new mode when it returns,
    whatever the flags were and whatever happens to the other writes. *)
Theorem power_hint_all_succeed
  (sysfs : oracle) (data : Z) (m : machine) :
  length (freq_set m) = Z.to_nat TOTAL_CPUS ->
  let t := length (log m) in
  (forall cpu : nat, (cpu < Z.to_nat TOTAL_CPUS)%nat ->
     max_ok sysfs
       (if data =? 0 then (t + cpu + 1)%nat else (t + 2 * cpu + 2)%nat)
       cpu (if data =? 0 then NORMAL_MAX_FREQ else LOW_POWER_MAX_FREQ)
     = true) ->
  consistent (snd (grouper_power_hint sysfs POWER_HINT_LOW_POWER data m)).
Proof.
  intros Hlen t Hok cpu Hcpu. rewrite hint_low_power_mode_run.
  specialize (Hok cpu Hcpu). subst t. destruct (data =? 0).
  - rewrite after_normal_lookup, Hok by assumption. reflexivity.
  - rewrite after_low_power_lookup, Hok by assumption. reflexivity.
Qed.

Lemma power_hint_all_succeed_witness :
  consistent (snd (grouper_power_hint (always Written) POWER_HINT_LOW_POWER 0
                     low_power_applied)).
Proof.
  apply (power_hint_all_succeed (always Written) 0 low_power_applied).
  - reflexivity.
  - intros cpu _. reflexivity.
Defined.

(** X9. POWER_HINT_INTERACTION makes exactly one outside call, the write
    of "1" to the boost-pulse endpoint, and leaves the mode and every
    flag alone, whether or not the write succeeds. *)
Theorem power_hint_interaction
  (sysfs : oracle) (data : Z) (m : machine) :
  let m' := snd (grouper_power_hint sysfs POWER_HINT_INTERACTION data m) in
  low_power_mode m' = low_power_mode m /\
  freq_set m' = freq_set m /\
  log m' = (log m ++ [Write CPUFREQ_BOOSTPULSE "1"])%list.
Proof.
  cbn zeta. rewrite hint_interaction_run. repeat split.
Qed.

(** X10. [grouper_power_set_interactive] never touches the policy state:
    the mode and every flag are unchanged for every argument and every
    outcome of its writes.  It makes five writes, the first to the
    core-lock trigger ("1" when [on] is non-zero, "0" otherwise), none to
    a per-CPU frequency endpoint, and never sleeps. *)
Theorem set_interactive_frame
  (sysfs : oracle) (on : Z) (m : machine) :
  let m' := snd (grouper_power_set_interactive sysfs on m) in
  low_power_mode m' = low_power_mode m /\
  freq_set m' = freq_set m /\
  exists added : list event,
    log m' = (log m ++ added)%list /\
    length added = 5%nat /\
    head added = Some (Write CPUQUIET_CORE_LOCKER
                         (if on =? 0 then "0" else "1")) /\
    Forall (fun e => match e with
                     | Write p _ => is_freq_path p = false
                     | Usleep _ => False
                     end) added.
Proof.
  cbn zeta. destruct (set_interactive_run sysfs on m) as (added & -> & H).
  cbn [snd low_power_mode freq_set log].
  split; [reflexivity|]. split; [reflexivity|].
  exists added. split; [reflexivity | exact H].
Qed.

(** X11. After any sequence of power hints, interactivity changes and
    handled messages made from the initial state, under any behaviour of
    the endpoints, there are [TOTAL_CPUS] flags and the flag of a CPU is
    set exactly when the last write to its maximum-frequency endpoint that
    succeeded wrote the low-power cap (failed writes leaving the endpoint
    as it was). *)
Theorem applied_sound_run
  (sysfs : oracle) (noconv_einval : bool) (cs : list call) :
  applied_sound sysfs (run sysfs noconv_einval cs).
Proof.
  unfold run. generalize (applied_sound_init sysfs).
  generalize machine_init. induction cs as [|c cs IH]; intros m Hm.
  - exact Hm.
  - cbn [foldl]. apply IH. apply run_call_sound. exact Hm.
Qed.

(** X12. The mode after any sequence of calls is the one the last
    POWER_HINT_LOW_POWER call asked for (normal when there was none):
    neither the handler nor any other entry point changes it, and no
    write failure keeps it from changing. *)
Theorem run_mode
  (sysfs : oracle) (noconv_einval : bool) (cs : list call) :
  low_power_mode (run sysfs noconv_einval cs) = requested_mode false cs.
Proof.
  assert (forall m : machine,
            low_power_mode (foldl (run_call sysfs noconv_einval) m cs)
            = requested_mode (low_power_mode m) cs) as H.
  { induction cs as [|c cs IH]; intros m; [reflexivity|].
    cbn [foldl]. rewrite IH. unfold requested_mode at 2. cbn [foldl].
    f_equal. apply (run_call_mode sysfs noconv_einval m c). }
  exact (H machine_init).
Qed.

(** X13. When no write to a maximum-frequency endpoint ever fails, every
    flag agrees with the mode after any sequence of calls. *)
Theorem run_consistent
  (sysfs : oracle) (noconv_einval : bool) (cs : list call) :
  (forall (t cpu : nat) (s : string),
     (cpu < Z.to_nat TOTAL_CPUS)%nat -> max_ok sysfs t cpu s = true) ->
  consistent (run sysfs noconv_einval cs).
Proof.
  intros Hok. unfold run.
  assert (length (freq_set machine_init) = Z.to_nat TOTAL_CPUS
          /\ consistent machine_init) as Hinit.
  { split; [reflexivity|]. intros cpu Hcpu.
    change (Z.to_nat TOTAL_CPUS) with 4%nat in Hcpu.
    destruct cpu as [|[|[|[|cpu]]]]; [reflexivity ..|lia]. }
  revert Hinit. generalize machine_init.
  induction cs as [|c cs IH]; intros m [Hlen Hc].
  - exact Hc.
  - cbn [foldl]. apply IH. apply run_call_consistent; assumption.
Qed.

Lemma run_consistent_witness :
  consistent
    (run (always Written) false
       [PowerHint POWER_HINT_LOW_POWER 1;
        Uevent 61 (uevent_msg "online@/devices/system/cpu/cpu2");
        SetInteractive 0;
        PowerHint POWER_HINT_LOW_POWER 0]).
Proof.
  apply run_consistent. intros t cpu s _. reflexivity.
Defined.

(** X14. An online event for a valid CPU index whose maximum-frequency
    endpoint accepts writes brings that CPU's flag in agreement with the
    mode, and a second online event for the same CPU then does nothing at
    all. *)
Theorem uevent_event_heals_once
  (sysfs : oracle) (noconv_einval : bool) (n n' : Z) (msg msg' : string)
  (cpu : nat) (m : machine) :
  online_event n msg cpu ->
  online_event n' msg' cpu ->
  length (freq_set m) = Z.to_nat TOTAL_CPUS ->
  (forall (t : nat) (s : string), max_ok sysfs t cpu s = true) ->
  let m1 := snd (uevent_event sysfs noconv_einval n msg m) in
  freq_set m1 !! cpu = Some (low_power_mode m) /\
  uevent_event sysfs noconv_einval n' msg' m1 = (0, m1).
Proof.
  intros Hev Hev' Hlen Hok m1. subst m1.
  rewrite (uevent_event_online _ _ _ _ _ _ Hev).
  rewrite (uevent_event_online _ _ _ _ _ _ Hev').
  assert (cpu < length (freq_set m))%nat as Hlt
    by (destruct Hev as (_ & _ & _ & H); lia).
  destruct (lookup_lt_is_Some_2 _ _ Hlt) as [b Hb].
  destruct (low_power_mode m) eqn:Hm, b.
  - rewrite reconcile_noop by (rewrite Hb, Hm; reflexivity). cbn [snd].
    split; [exact Hb|].
    apply reconcile_noop. rewrite Hb, Hm. reflexivity.
  - rewrite (reconcile_low_power sysfs cpu m Hm Hb).
    rewrite (low_power_retry_success sysfs cpu 0 20 m); cbn [snd];
      [|lia|intros j Hj; lia|apply Hok].
    split; [apply list_lookup_insert_eq; exact Hlt|].
    apply reconcile_noop. cbn [freq_set low_power_mode].
    rewrite list_lookup_insert_eq by exact Hlt. rewrite Hm. reflexivity.
  - rewrite (reconcile_normal sysfs cpu m Hm Hb).
    rewrite (normal_retry_success sysfs cpu 0 20 m); cbn [snd];
      [|lia|intros j Hj; lia|apply Hok].
    split; [apply list_lookup_insert_eq; exact Hlt|].
    apply reconcile_noop. cbn [freq_set low_power_mode].
    rewrite list_lookup_insert_eq by exact Hlt. rewrite Hm. reflexivity.
  - rewrite reconcile_noop by (rewrite Hb, Hm; reflexivity). cbn [snd].
    split; [exact Hb|].
    apply reconcile_noop. rewrite Hb, Hm. reflexivity.
Qed.

Lemma uevent_event_heals_once_witness :
  let msg := uevent_msg "online@/devices/system/cpu/cpu3" in
  let m1 := snd (uevent_event (always Written) false (recv_len msg) msg
                   low_power_unapplied) in
  freq_set m1 !! 3%nat = Some true /\
  uevent_event (always Written) false (recv_len msg) msg m1 = (0, m1).
Proof.
  intros msg m1.
  apply (uevent_event_heals_once (always Written) false (recv_len msg)
           (recv_len msg) msg msg 3%nat low_power_unapplied).
  - solve_online_event.
  - solve_online_event.
  - reflexivity.
  - intros t s. reflexivity.
Defined.

(** X15. The listener loop hands to the handler, in order, exactly the
    messages received before the first [poll] failure other than EINTR,
    and it leaves the loop exactly when there is such a failure: an
    interrupted [poll] is retried, and a handler call that returns -1
    does not stop the loop. *)
Theorem thread_uevent_handles_delivered
  (sysfs : oracle) (noconv_einval : bool) (ws : list wakeup) (m : machine) :
  thread_uevent sysfs noconv_einval ws m =
    (fatal ws, foldl (handle sysfs noconv_einval) m (delivered ws)).
Proof. apply thread_uevent_run. Qed.

(** X16. Once [poll] fails with an error other than EINTR the listener is
    gone for good: whatever arrives afterwards is never handled (no flag
    changes, no write is made for it). *)
Theorem thread_uevent_no_restart
  (sysfs : oracle) (noconv_einval : bool) (ws1 ws2 : list wakeup)
  (errno : Z) (m : machine) :
  errno <> EINTR ->
  thread_uevent sysfs noconv_einval (ws1 ++ PollFails errno :: ws2) m =
    (true, snd (thread_uevent sysfs noconv_einval ws1 m)).
Proof.
  intros He. rewrite !thread_uevent_run. cbn [snd].
  assert ((errno =? EINTR) = false) as Hb by (apply Z.eqb_neq; exact He).
  f_equal.
  - unfold fatal. rewrite existsb_app. cbn [existsb]. rewrite Hb.
    cbn [negb orb]. apply orb_true_r.
  - f_equal. induction ws1 as [|[e | n msg] ws1 IH];
      cbn [app delivered].
    + rewrite Hb. reflexivity.
    + destruct (e =? EINTR); [exact IH | reflexivity].
    + rewrite IH. reflexivity.
Qed.

Lemma thread_uevent_no_restart_witness :
  let msg := uevent_msg "online@/devices/system/cpu/cpu1" in
  thread_uevent (always Written) false
    ([PollFails EINTR] ++ PollFails 9 :: [PollReturns (recv_len msg) msg])
    low_power_unapplied
  = (true, low_power_unapplied).
Proof.
  intros msg.
  apply (thread_uevent_no_restart (always Written) false [PollFails EINTR]
           [PollReturns (recv_len msg) msg] 9 low_power_unapplied).
  discriminate.
Defined.


(** C4, as the code has it.  A low-power hint during which (between its
    first and its last outside call) every maximum-bound write to CPU 1
    fails and those to CPUs 0, 2 and 3 succeed returns with the mode set,
    the flags of CPUs 0, 2 and 3 set, and CPU 1's flag as it was before
    the call: the hint never clears a flag.  When that flag is clear, an
    online event for CPU 1 that follows writes CPU 1's two endpoints again
    and, as soon as one of its (at most 20) maximum-bound writes succeeds,
    sets it; when it was already set (the cap written by an earlier call
    is still in place), the online event writes nothing. *)
Theorem set_mode_failure_then_online
  (sysfs : oracle) (noconv_einval : bool) (data n : Z) (msg : string)
  (m : machine) :
  data <> 0 ->
  length (freq_set m) = Z.to_nat TOTAL_CPUS ->
  let m1 := snd (grouper_power_hint sysfs POWER_HINT_LOW_POWER data m) in
  (forall (t : nat) (s : string),
     (length (log m) <= t < length (log m1))%nat ->
     max_ok sysfs t 1 s = false) ->
  (forall (t cpu : nat) (s : string),
     (length (log m) <= t < length (log m1))%nat ->
     (cpu < Z.to_nat TOTAL_CPUS)%nat -> cpu <> 1%nat ->
     max_ok sysfs t cpu s = true) ->
  low_power_mode m1 = true /\
  freq_set m1 !! 1%nat = freq_set m !! 1%nat /\
  (forall cpu : nat, (cpu < Z.to_nat TOTAL_CPUS)%nat -> cpu <> 1%nat ->
     freq_set m1 !! cpu = Some true) /\
  (online_event n msg 1 ->
   let m2 := snd (uevent_event sysfs noconv_einval n msg m1) in
   (freq_set m !! 1%nat = Some false ->
    (exists k : nat, (k < 20)%nat /\
       max_ok sysfs (length (log m1) + 3 * k + 1) 1 LOW_POWER_MAX_FREQ
       = true) ->
    low_power_mode m2 = true /\
    freq_set m2 = [true; true; true; true] /\
    exists k0 : nat, (k0 < 20)%nat /\
      log m2 = (log m1
                ++ concat (replicate k0 (low_power_failed_round 1))
                ++ low_power_round 1)%list) /\
   (freq_set m !! 1%nat = Some true ->
    uevent_event sysfs noconv_einval n msg m1 = (0, m1))).
Proof.
  intros Hd Hlen m1 Hfail Hsucc.
  assert (m1 = after_low_power sysfs m) as Hm1
    by (subst m1; rewrite (hint_low_power_run sysfs data m Hd); reflexivity).
  assert (length (log m1) = (length (log m) + 9)%nat) as Hlog.
  { rewrite Hm1. cbn [after_low_power log]. rewrite length_app. reflexivity. }
  assert (low_power_mode m1 = true) as Hmode by (rewrite Hm1; reflexivity).
  assert (forall cpu : nat, (cpu < Z.to_nat TOTAL_CPUS)%nat ->
            freq_set m1 !! cpu =
            if Nat.eqb cpu 1 then freq_set m !! cpu else Some true) as Hfs.
  { intros cpu Hcpu. rewrite Hm1, after_low_power_lookup by assumption.
    change (Z.to_nat TOTAL_CPUS) with 4%nat in Hcpu.
    destruct (Nat.eqb_spec cpu 1) as [->|Hne].
    - rewrite Hfail by lia. reflexivity.
    - rewrite Hsucc; [reflexivity | lia | exact Hcpu | exact Hne]. }
  assert (1 < Z.to_nat TOTAL_CPUS)%nat as H1 by (vm_compute; lia).
  split; [exact Hmode|]. split; [exact (Hfs 1%nat H1)|]. split.
  { intros cpu Hcpu Hne. rewrite (Hfs cpu Hcpu).
    destruct (Nat.eqb_spec cpu 1); [contradiction | reflexivity]. }
  intros Hev m2. subst m2. rewrite (uevent_event_online _ _ _ _ _ _ Hev).
  split.
  - intros Hclear (k & Hk & Hok).
    assert (freq_set m1 !! 1%nat = Some false) as Hclear1
      by (rewrite (Hfs 1%nat H1); exact Hclear).
    rewrite (reconcile_low_power sysfs 1 m1 Hmode Hclear1). cbn [snd].
    destruct (first_true
                (fun j => max_ok sysfs (length (log m1) + 3 * j + 1) 1
                            LOW_POWER_MAX_FREQ) 20)
      as [Hnone | (k0 & Hk0 & Hok0 & Hmin)].
    + rewrite (Hnone k Hk) in Hok. discriminate Hok.
    + rewrite (low_power_retry_success sysfs 1 k0 20 m1 Hk0 Hmin Hok0).
      cbn [snd low_power_mode freq_set log].
      split; [exact Hmode|]. split.
      * pose proof (Hfs 0%nat ltac:(vm_compute; lia)) as F0.
        pose proof (Hfs 2%nat ltac:(vm_compute; lia)) as F2.
        pose proof (Hfs 3%nat ltac:(vm_compute; lia)) as F3.
        assert (length (freq_set m1) = 4%nat) as Hlen1.
        { rewrite Hm1. cbn [after_low_power freq_set]. rewrite cpus_eq.
          cbn [foldl].
          repeat match goal with
                 | |- context [max_ok ?o ?t ?c ?s] =>
                     destruct (max_ok o t c s)
                 end; rewrite ?length_insert; exact Hlen. }
        destruct (freq_set m1) as [|a [|b [|c [|d [|e fs]]]]];
          try discriminate Hlen1.
        cbn in F0, F2, F3. injection F0 as ->. injection F2 as ->.
        injection F3 as ->. reflexivity.
      * exists k0. split; [exact Hk0 | reflexivity].
  - intros Hset. apply reconcile_noop.
    rewrite (Hfs 1%nat H1), Hset, Hmode. reflexivity.
Qed.

Lemma set_mode_failure_then_online_witness :
  let sysfs := cpu1_offline_until 9 in
  let msg := uevent_msg "online@/devices/system/cpu/cpu1" in
  let m1 := snd (grouper_power_hint sysfs POWER_HINT_LOW_POWER 1
                   machine_init) in
  let m2 := snd (uevent_event sysfs false (recv_len msg) msg m1) in
  freq_set m1 !! 1%nat = Some false /\
  freq_set m1 !! 2%nat = Some true /\
  freq_set m2 = [true; true; true; true].
Proof.
  intros sysfs msg m1 m2.
  destruct (set_mode_failure_then_online sysfs false 1 (recv_len msg) msg
              machine_init) as (_ & Hfs1 & Hothers & Hev).
  - discriminate.
  - reflexivity.
  - intros t s [_ Ht]. change (t < 9)%nat in Ht.
    unfold max_ok, sysfs, cpu1_offline_until.
    apply Nat.ltb_lt in Ht. rewrite Ht. reflexivity.
  - intros t cpu s Ht Hcpu Hne.
    change (Z.to_nat TOTAL_CPUS) with 4%nat in Hcpu.
    unfold max_ok, sysfs, cpu1_offline_until.
    destruct cpu as [|[|[|[|cpu]]]]; try congruence; try lia;
      destruct (t <? 9)%nat; reflexivity.
  - split; [exact Hfs1|]. split.
    + apply Hothers; [vm_compute; lia | discriminate].
    + destruct Hev as [Hclear _]; [solve_online_event|].
      destruct Hclear as (_ & Hfs2 & _).
      * reflexivity.
      * exists 0%nat. split; [lia | reflexivity].
      * exact Hfs2.
Defined.

(** C4, as the spec words it, fails when CPU 1's flag is already set.
    From the initial state a first low-power hint succeeds everywhere; CPU
    1 then goes offline and a second low-power hint fails on CPU 1 and
    succeeds on CPUs 0, 2 and 3: CPU 1's flag is still set when it
    returns, and the online event for CPU 1 that follows, with CPU 1 back,
    makes no write. *)
Lemma set_mode_failure_flag_stays_set :
  let sysfs := cpu1_offline_between 9 18 in
  let msg := uevent_msg "online@/devices/system/cpu/cpu1" in
  let m := snd (grouper_power_hint sysfs POWER_HINT_LOW_POWER 1
                  machine_init) in
  let m1 := snd (grouper_power_hint sysfs POWER_HINT_LOW_POWER 1 m) in
  (forall (t : nat) (s : string),
     (length (log m) <= t < length (log m1))%nat ->
     max_ok sysfs t 1 s = false) /\
  (forall (t cpu : nat) (s : string),
     (length (log m) <= t < length (log m1))%nat ->
     (cpu < Z.to_nat TOTAL_CPUS)%nat -> cpu <> 1%nat ->
     max_ok sysfs t cpu s = true) /\
  freq_set m1 = [true; true; true; true] /\
  freq_set m1 !! 1%nat <> Some false /\
  uevent_event sysfs false (recv_len msg) msg m1 = (0, m1).
Proof.
  intros sysfs msg m m1.
  split.
  { intros t s Ht. change (9 <= t < 18)%nat in Ht.
    unfold max_ok, sysfs, cpu1_offline_between.
    destruct (Nat.leb_spec 9 t); [|lia].
    destruct (Nat.ltb_spec t 18); [|lia]. reflexivity. }
  split.
  { intros t cpu s _ Hcpu Hne.
    change (Z.to_nat TOTAL_CPUS) with 4%nat in Hcpu.
    unfold max_ok, sysfs, cpu1_offline_between.
    destruct cpu as [|[|[|[|cpu]]]]; try congruence; try lia;
      destruct ((9 <=? t)%nat && (t <? 18)%nat); reflexivity. }
  split; [reflexivity|]. split; [discriminate | reflexivity].
Qed.
